(** * tcplisten: the socket construction and option-application pipeline

    A shallow embedding of [tcplisten.go], [tcplisten_bsd.go] and
    [tcplisten_windows.go].  The operating system and the Go standard
    library are an explicit environment: every external call is appended to
    a log, its outcome is chosen by an oracle that may depend on the whole
    history, and the table of open descriptors is threaded through the
    pipeline. *)

From Stdlib Require Import ZArith String List.
From Stdlib.Strings Require Import Byte.
From stdpp Require Import base gmap sets list strings pretty.

Local Open Scope Z_scope.

(** ** Errors and results *)

(** Error values that come from outside this package: an errno handed back
    by a system call, or an error value built inside package [net] or [os]. *)
Inductive ext_error : Type :=
| Errno (code : Z)
| LibError (msg : string).

(** Go [error] values, keeping their provenance: an error received from
    outside, and the two ways this package builds errors itself.  A value made
    by [errors.New] here is never the same value as one made elsewhere.
    [fmt_Errorf format args cause] stands for
    [fmt.Errorf(format, args..., cause)]. *)
Inductive error : Type :=
| External (x : ext_error)
| errors_New (msg : string)
| fmt_Errorf (format : string) (args : list string) (cause : error).

Inductive result (A : Type) : Type :=
| Ok (a : A)
| Err (e : error).
Arguments Ok {A} a.
Arguments Err {A} e.

Definition is_ok {A} (r : result A) : bool :=
  match r with Ok _ => true | Err _ => false end.

(** What the environment answers to a query. *)
Inductive reply (A : Type) : Type :=
| Reply (a : A)
| Fault (x : ext_error).
Arguments Reply {A} a.
Arguments Fault {A} x.

(** ** Socket addresses *)

(** [syscall.SockaddrInet4] and [syscall.SockaddrInet6]; [Addr] is a [4]byte,
    respectively a [16]byte, array. *)
Inductive Sockaddr : Type :=
| SockaddrInet4 (Port : Z) (Addr : list byte)
| SockaddrInet6 (Port : Z) (ZoneId : Z) (Addr : list byte).

(** [net.TCPAddr] and the part of [net.Interface] the code reads. *)
Record TCPAddr := { IP : list byte; Port : Z; Zone : string }.
Record Interface := { Index : Z; Name : string }.

(** ** The environment *)

Inductive tunable :=
| DeferAccept_opt
| FastOpen_opt
| NoDelay_opt
| QuickAck_opt.

(** The external calls the pipeline can make. *)
Inductive call : Type :=
| Socket (domain typ proto : Z) (cloexec : bool)
| SetsockoptInt (fd level opt value : Z)
| Bind (fd : Z) (sa : Sockaddr)
| Listen (fd backlog : Z)
| Close (fd : Z)
| FileListener (fd : Z)
| FileClose (fd : Z)
| ListenerClose (fd : Z)
| EnableOption (o : tunable) (fd : Z)
| QueryBacklog
| NetListen (network addr : string).

(** The open descriptors of the process and the log of external calls. *)
Record World := { fds : gset Z; calls : list call }.

(** Constants of package [syscall]; their values differ between targets. *)
Class Syscall := {
  SOL_SOCKET : Z;
  SO_REUSEADDR : Z;
  SO_REUSEPORT : Z;
  IPPROTO_TCP : Z;
  TCP_NODELAY : Z;
  SOCK_STREAM : Z;
  AF_INET : Z;
  AF_INET6 : Z;
  SOMAXCONN : Z }.

(** The behaviour of the kernel and of the Go standard library.
    [sys_err h c] is the outcome of call [c] after history [h] ([None] is
    success).  Address resolution and interface lookup have no effect on
    descriptors and are functions of their arguments. *)
Class OS := {
  sys_err : list call -> call -> option ext_error;
  net_ResolveTCPAddr : string -> string -> reply TCPAddr;
  net_InterfaceByName : string -> reply Interface;
  os_Getpid : Z;
  os_somaxconn : Z;
  os_reuseport_opt : Z }.

(** ** A state and error monad

    The state survives an error: a failed call has still happened. *)
Definition M (S A : Type) : Type := S -> S * result A.

Definition ret {S A} (a : A) : M S A := fun s => (s, Ok a).
Definition bind {S A B} (m : M S A) (f : A -> M S B) : M S B :=
  fun s => match m s with
           | (s', Ok a) => f a s'
           | (s', Err e) => (s', Err e)
           end.

Notation "x <- m ;; k" := (bind m (fun x => k))
  (at level 100, m at next level, right associativity).
Notation "m ;;; k" := (bind m (fun _ => k))
  (at level 100, right associativity).

(** [if err = m; err != nil { return w(err) }] *)
Definition wrap {S A} (w : error -> error) (m : M S A) : M S A :=
  fun s => match m s with
           | (s', Ok a) => (s', Ok a)
           | (s', Err e) => (s', Err (w e))
           end.

Definition when {S} (b : bool) (m : M S unit) : M S unit :=
  if b then m else ret tt.

(** The wrapping of a failure to enable the option called [name]. *)
Definition option_error (name : string) : error -> error :=
  fmt_Errorf ("cannot enable " +:+ name +:+ ": %s") [].

(** *** [net.IP] helpers, after package [net] *)

Definition isZeros (p : list byte) : bool := forallb (Byte.eqb x00) p.

Definition v4InV6Prefix : list byte :=
  [x00; x00; x00; x00; x00; x00; x00; x00; x00; x00; xff; xff].

Definition To4 (ip : list byte) : list byte :=
  if (length ip =? 4)%nat then ip
  else if (length ip =? 16)%nat
          && isZeros (take 10 ip)
          && Byte.eqb (nth 10 ip x00) xff
          && Byte.eqb (nth 11 ip x00) xff
       then take 4 (drop 12 ip)
       else [].

Definition To16 (ip : list byte) : list byte :=
  if (length ip =? 4)%nat then v4InV6Prefix ++ ip
  else if (length ip =? 16)%nat then ip
  else [].

(** [copy(dst[:], src)] into a zeroed [n]-byte array. *)
Definition copy_into (n : nat) (src : list byte) : list byte :=
  take n src ++ replicate (n - length (take n src)) x00.

Definition uint32 (x : Z) : Z := x mod 2 ^ 32.

Section Environment.
Context {os : OS}.

Definition logged (c : call) (w : World) : World :=
  {| fds := fds w; calls := calls w ++ [c] |}.

Definition with_calls (w : World) (cs : list call) : World :=
  {| fds := fds w; calls := calls w ++ cs |}.

(** A call that neither opens nor closes a descriptor. *)
Definition sys (c : call) : M World unit :=
  fun w => match sys_err (calls w) c with
           | None => (logged c w, Ok tt)
           | Some x => (logged c w, Err (External x))
           end.

(** A call that, when it succeeds, opens a descriptor the process does not
    hold yet. *)
Definition acquire (c : call) : M World Z :=
  fun w => match sys_err (calls w) c with
           | None =>
               let fd := fresh (fds w) in
               ({| fds := {[fd]} ∪ fds w; calls := calls w ++ [c] |}, Ok fd)
           | Some x => (logged c w, Err (External x))
           end.

(** A call that closes descriptor [fd].  The descriptor is gone afterwards
    whatever the call reports: the kernels this package targets release the
    descriptor even when close(2) fails, and Go's [os.File] and listener
    drop theirs before looking at the result. *)
Definition release (c : call) (fd : Z) : M World unit :=
  fun w =>
    let w' := {| fds := fds w ∖ {[fd]}; calls := calls w ++ [c] |} in
    match sys_err (calls w) c with
    | None => (w', Ok tt)
    | Some x => (w', Err (External x))
    end.

Definition syscall_SetsockoptInt (fd level opt value : Z) : M World unit :=
  sys (SetsockoptInt fd level opt value).
Definition syscall_Bind (fd : Z) (sa : Sockaddr) : M World unit :=
  sys (Bind fd sa).
Definition syscall_Listen (fd backlog : Z) : M World unit :=
  sys (Listen fd backlog).
Definition syscall_Close (fd : Z) : M World unit :=
  release (Close fd) fd.

(** [os.File]: a descriptor with a name; [os.NewFile] opens nothing. *)
Record File := { file_fd : Z; file_name : string }.
Definition os_NewFile (fd : Z) (name : string) : File :=
  {| file_fd := fd; file_name := name |}.
Definition File_Close (f : File) : M World unit :=
  release (FileClose (file_fd f)) (file_fd f).

(** [net.Listener]: it owns a descriptor of its own.  [net.FileListener]
    duplicates the file's descriptor; when it fails it leaves none behind. *)
Record Listener := { ln_fd : Z }.
Definition net_FileListener (f : File) : M World Listener :=
  fd <- acquire (FileListener (file_fd f)) ;; ret {| ln_fd := fd |}.
Definition Listener_Close (ln : Listener) : M World unit :=
  release (ListenerClose (ln_fd ln)) (ln_fd ln).
Definition net_Listen (network addr : string) : M World Listener :=
  fd <- acquire (NetListen network addr) ;; ret {| ln_fd := fd |}.

End Environment.

(** ** The descriptor-based variant: [tcplisten.go] *)

Module Unix.

(** [Config] provides options to enable on the returned listener. *)
Record Config := {
  ReusePort : bool;
  DeferAccept : bool;
  FastOpen : bool;
  NoDelay : bool;
  QuickACK : bool;
  Backlog : Z }.

(** What the other files of the package provide to [tcplisten.go]: the socket
    factory, the port-sharing option constant, the four tunables and the
    backlog query. *)
Record Platform := {
  newSocketCloexec : Z -> Z -> Z -> M World Z;
  soReusePort : Z;
  enableDeferAccept : Z -> M World unit;
  enableFastOpen : Z -> M World unit;
  enableNoDelay : Z -> M World unit;
  enableQuickAck : Z -> M World unit;
  soMaxConn : M World Z }.

(** [fdSetup] has a pointer receiver: it runs on the cell holding the
    [Config] together with the world. *)
Definition lift {A} (m : M World A) : M (Config * World) A :=
  fun s => let (w', r) := m (snd s) in ((fst s, w'), r).

(** Read a field of the receiver. *)
Definition cfg_field {A} (f : Config -> A) : M (Config * World) A :=
  fun s => (s, Ok (f (fst s))).

Module SocketFactory.
(** Modelled from the spec: [newSocketCloexec] is not among the sources.  It
    allocates one stream socket, marked non-inheritable when it is created,
    and fails with the operating system's error wrapped, leaving no
    descriptor behind. *)
Definition newSocketCloexec {os : OS} (domain typ proto : Z) : M World Z :=
  wrap (fmt_Errorf "cannot create listening socket: %s" [])
       (acquire (Socket domain typ proto true)).
End SocketFactory.

Section Pipeline.
Context {sc : Syscall} {os : OS}.

Definition getSockaddr (network addr : string) : result (Sockaddr * Z) :=
  if negb (String.eqb network "tcp") && negb (String.eqb network "tcp4")
     && negb (String.eqb network "tcp6")
  then Err (errors_New "only tcp4 and tcp6 network is supported")
  else
    match net_ResolveTCPAddr network addr with
    | Fault x => Err (External x)
    | Reply tcpAddr =>
        if String.eqb network "tcp" || String.eqb network "tcp4" then
          Ok (SockaddrInet4 (Port tcpAddr) (copy_into 4 (To4 (IP tcpAddr))),
              AF_INET)
        else if String.eqb network "tcp6" then
          let port := Port tcpAddr in
          let a := copy_into 16 (To16 (IP tcpAddr)) in
          if negb (String.eqb (Zone tcpAddr) "") then
            match net_InterfaceByName (Zone tcpAddr) with
            | Fault x => Err (External x)
            | Reply ifi =>
                Ok (SockaddrInet6 port (uint32 (Index ifi)) a, AF_INET6)
            end
          else Ok (SockaddrInet6 port 0 a, AF_INET6)
        else Err (errors_New ("Unknown network type " +:+ network))
    end.

Section WithPlatform.
Variable P : Platform.

Definition fdSetup (fd : Z) (sa : Sockaddr) (addr : string)
  : M (Config * World) unit :=
  wrap (fmt_Errorf "cannot enable SO_REUSEADDR: %s" [])
       (lift (syscall_SetsockoptInt fd SOL_SOCKET SO_REUSEADDR 1)) ;;;
  wrap (fmt_Errorf "cannot disable Nagle's algorithm: %s" [])
       (lift (syscall_SetsockoptInt fd IPPROTO_TCP TCP_NODELAY 1)) ;;;
  reusePort <- cfg_field ReusePort ;;
  when reusePort
       (wrap (fmt_Errorf "cannot enable SO_REUSEPORT: %s" [])
             (lift (syscall_SetsockoptInt fd SOL_SOCKET (soReusePort P) 1))) ;;;
  deferAccept <- cfg_field DeferAccept ;;
  when deferAccept (lift (enableDeferAccept P fd)) ;;;
  fastOpen <- cfg_field FastOpen ;;
  when fastOpen (lift (enableFastOpen P fd)) ;;;
  noDelay <- cfg_field NoDelay ;;
  when noDelay (lift (enableNoDelay P fd)) ;;;
  quickACK <- cfg_field QuickACK ;;
  when quickACK (lift (enableQuickAck P fd)) ;;;
  wrap (fmt_Errorf "cannot bind to %q: %s" [addr])
       (lift (syscall_Bind fd sa)) ;;;
  backlog <- cfg_field Backlog ;;
  backlog <- (if backlog <=? 0
              then wrap
                     (fmt_Errorf
                        "cannot determine backlog to pass to listen(2): %s" [])
                     (lift (soMaxConn P))
              else ret backlog) ;;
  wrap (fmt_Errorf "cannot listen on %q: %s" [addr])
       (lift (syscall_Listen fd backlog)).

(** [cfg] is passed by value; [fdSetup] gets the address of this copy. *)
Definition NewListener (network addr : string) (cfg : Config)
  : M World Listener :=
  fun w =>
    match getSockaddr network addr with
    | Err e => (w, Err e)
    | Ok (sa, soType) =>
        match newSocketCloexec P soType SOCK_STREAM IPPROTO_TCP w with
        | (w1, Err e) => (w1, Err e)
        | (w1, Ok fd) =>
            match fdSetup fd sa addr (cfg, w1) with
            | ((_, w2), Err e) =>
                let (w3, _) := syscall_Close fd w2 in (w3, Err e)
            | ((_, w2), Ok _) =>
                let name := "reuseport." +:+ pretty os_Getpid +:+ "."
                            +:+ network +:+ "." +:+ addr in
                let file := os_NewFile fd name in
                match net_FileListener file w2 with
                | (w3, Err e) =>
                    let (w4, _) := File_Close file w3 in (w4, Err e)
                | (w3, Ok ln) =>
                    match File_Close file w3 with
                    | (w4, Err e) =>
                        let (w5, _) := Listener_Close ln w4 in (w5, Err e)
                    | (w4, Ok _) => (w4, Ok ln)
                    end
                end
            end
        end
    end.

End WithPlatform.
End Pipeline.

(** *** [tcplisten_bsd.go] *)

Module Bsd.
Section Bsd.
Context {sc : Syscall}.
Definition soReusePort : Z := SO_REUSEPORT.
Definition enableDeferAccept (fd : Z) : M World unit := ret tt.
Definition enableFastOpen (fd : Z) : M World unit := ret tt.
Definition enableNoDelay (fd : Z) : M World unit := ret tt.
Definition enableQuickAck (fd : Z) : M World unit := ret tt.
Definition soMaxConn : M World Z := ret SOMAXCONN.
End Bsd.
End Bsd.

Definition bsd {sc : Syscall} {os : OS} : Platform :=
  {| newSocketCloexec := SocketFactory.newSocketCloexec;
     soReusePort := Bsd.soReusePort;
     enableDeferAccept := Bsd.enableDeferAccept;
     enableFastOpen := Bsd.enableFastOpen;
     enableNoDelay := Bsd.enableNoDelay;
     enableQuickAck := Bsd.enableQuickAck;
     soMaxConn := Bsd.soMaxConn |}.

(** *** The full-featured variant

    Its platform file is not among the sources; what follows is written from
    sections 4.3 and 4.4 of the specification. *)

Module Full.
Section Full.
Context {os : OS}.

Definition option_name (o : tunable) : string :=
  match o with
  | DeferAccept_opt => "TCP_DEFER_ACCEPT"
  | FastOpen_opt => "TCP_FASTOPEN"
  | NoDelay_opt => "TCP_NODELAY"
  | QuickAck_opt => "TCP_QUICKACK"
  end.

(** Modelled from the spec: the platform file of the full-featured variant
    is missing.  A tunable takes the descriptor and asks the kernel for the
    option; it returns success, or the platform's error wrapped with the
    option's name. *)
Definition enable (o : tunable) (fd : Z) : M World unit :=
  wrap (option_error (option_name o)) (sys (EnableOption o fd)).

(** Modelled from the spec: the missing platform file's constant for the
    port-sharing option, a value of the variant's own. *)
Definition soReusePort : Z := os_reuseport_opt.

Definition enableDeferAccept : Z -> M World unit := enable DeferAccept_opt.
Definition enableFastOpen : Z -> M World unit := enable FastOpen_opt.
Definition enableNoDelay : Z -> M World unit := enable NoDelay_opt.
Definition enableQuickAck : Z -> M World unit := enable QuickAck_opt.

(** Modelled from the spec: the missing platform file's backlog query.  It
    asks the system for its maximum backlog, and may fail. *)
Definition soMaxConn : M World Z := sys QueryBacklog ;;; ret os_somaxconn.

End Full.
End Full.

Definition full {os : OS} : Platform :=
  {| newSocketCloexec := SocketFactory.newSocketCloexec;
     soReusePort := Full.soReusePort;
     enableDeferAccept := Full.enableDeferAccept;
     enableFastOpen := Full.enableFastOpen;
     enableNoDelay := Full.enableNoDelay;
     enableQuickAck := Full.enableQuickAck;
     soMaxConn := Full.soMaxConn |}.

End Unix.

(** ** The pass-through variant: [tcplisten_windows.go] *)

Module Windows.

Record Config := {
  ReusePort : bool;
  DeferAccept : bool;
  FastOpen : bool;
  Backlog : Z }.

Definition NewListener {os : OS} (network addr : string) (cfg : Config)
  : M World Listener :=
  net_Listen network addr.

End Windows.

(** ** The pipeline as a sequence of steps

    The order of sections 4.4 and 4.5 of the specification, written as data:
    each step is one external call together with the wrapping its failure
    gets.  The theorems below compare [Unix.fdSetup] with it. *)

Inductive variant := BSD | FULL.

Record step := { step_call : call; step_wrap : error -> error }.

Section Steps.
Context {sc : Syscall} {os : OS}.
Import Unix.

Definition platform (v : variant) : Platform :=
  match v with BSD => bsd | FULL => full end.

(** Run the steps in order, stopping at the first failure. *)
Fixpoint exec (p : list step) : M World unit :=
  match p with
  | [] => ret tt
  | s :: p' => wrap (step_wrap s) (sys (step_call s)) ;;; exec p'
  end.

(** Every call of [cs] succeeds when made in this order after history [h]. *)
Fixpoint all_ok (h : list call) (cs : list call) : bool :=
  match cs with
  | [] => true
  | c :: cs' =>
      match sys_err h c with
      | None => all_ok (h ++ [c]) cs'
      | Some _ => false
      end
  end.

(** Steps 1 and 2: unconditional. *)
Definition mandatory_steps (fd : Z) : list step :=
  [ {| step_call := SetsockoptInt fd SOL_SOCKET SO_REUSEADDR 1;
       step_wrap := fmt_Errorf "cannot enable SO_REUSEADDR: %s" [] |};
    {| step_call := SetsockoptInt fd IPPROTO_TCP TCP_NODELAY 1;
       step_wrap := fmt_Errorf "cannot disable Nagle's algorithm: %s" [] |} ].

(** What a tunable does on each variant: nothing, or one request to the
    kernel.  Each request is paired with the name of its option. *)
Definition tunable_request (v : variant) (o : tunable) (fd : Z)
  : list (string * call) :=
  match v with
  | BSD => []
  | FULL => [ (Full.option_name o, EnableOption o fd) ]
  end.

(** Steps 3 to 7: only those whose flag is set, in this order. *)
Definition requested_options (v : variant) (cfg : Config) (fd : Z)
  : list (string * call) :=
  (if ReusePort cfg
   then [ ("SO_REUSEPORT"%string,
           SetsockoptInt fd SOL_SOCKET (soReusePort (platform v)) 1) ]
   else [])
  ++ (if DeferAccept cfg then tunable_request v DeferAccept_opt fd else [])
  ++ (if FastOpen cfg then tunable_request v FastOpen_opt fd else [])
  ++ (if NoDelay cfg then tunable_request v NoDelay_opt fd else [])
  ++ (if QuickACK cfg then tunable_request v QuickAck_opt fd else []).

Definition option_step (o : string * call) : step :=
  {| step_call := o.2; step_wrap := option_error o.1 |}.

Definition requested_steps (v : variant) (cfg : Config) (fd : Z) : list step :=
  map option_step (requested_options v cfg fd).

Definition bind_step (fd : Z) (sa : Sockaddr) (addr : string) : step :=
  {| step_call := Bind fd sa;
     step_wrap := fmt_Errorf "cannot bind to %q: %s" [addr] |}.

Definition maxPendingBacklog (v : variant) : Z :=
  match v with BSD => SOMAXCONN | FULL => os_somaxconn end.

Definition backlog_query_steps (v : variant) (cfg : Config) : list step :=
  if 0 <? Backlog cfg then []
  else match v with
       | BSD => []
       | FULL =>
           [ {| step_call := QueryBacklog;
                step_wrap :=
                  fmt_Errorf
                    "cannot determine backlog to pass to listen(2): %s" [] |} ]
       end.

Definition effective_backlog (v : variant) (cfg : Config) : Z :=
  if 0 <? Backlog cfg then Backlog cfg else maxPendingBacklog v.

Definition listen_step (v : variant) (cfg : Config) (fd : Z) (addr : string)
  : step :=
  {| step_call := Listen fd (effective_backlog v cfg);
     step_wrap := fmt_Errorf "cannot listen on %q: %s" [addr] |}.

Definition setup_steps (v : variant) (cfg : Config) (fd : Z) (sa : Sockaddr)
  (addr : string) : list step :=
  mandatory_steps fd ++ requested_steps v cfg fd ++ [bind_step fd sa addr]
  ++ backlog_query_steps v cfg ++ [listen_step v cfg fd addr].

(** The calls of a complete run, in order. *)
Definition setup_calls (v : variant) (cfg : Config) (fd : Z) (sa : Sockaddr)
  : list call :=
  [ SetsockoptInt fd SOL_SOCKET SO_REUSEADDR 1;
    SetsockoptInt fd IPPROTO_TCP TCP_NODELAY 1 ]
  ++ map snd (requested_options v cfg fd)
  ++ [ Bind fd sa ]
  ++ map step_call (backlog_query_steps v cfg)
  ++ [ Listen fd (effective_backlog v cfg) ].

(** [cfg] with its [Backlog] replaced. *)
Definition set_Backlog (b : Z) (cfg : Config) : Config :=
  {| ReusePort := ReusePort cfg;
     DeferAccept := DeferAccept cfg;
     FastOpen := FastOpen cfg;
     NoDelay := NoDelay cfg;
     QuickACK := QuickACK cfg;
     Backlog := b |}.

(** The whole of a successful [NewListener]: the socket, the setup, and the
    hand-over to the listener. *)
Definition listener_calls (v : variant) (cfg : Config) (fd : Z)
  (sa : Sockaddr) (soType : Z) : list call :=
  Socket soType SOCK_STREAM IPPROTO_TCP true
  :: setup_calls v cfg fd sa ++ [ FileListener fd; FileClose fd ].

(** [cfg] with the four platform tunables switched off. *)
Definition without_tunables (cfg : Config) : Config :=
  {| ReusePort := ReusePort cfg;
     DeferAccept := false;
     FastOpen := false;
     NoDelay := false;
     QuickACK := false;
     Backlog := Backlog cfg |}.

End Steps.

(** ** Frame conditions *)

(** [m] leaves the observation [f] of the state as it was, whatever it
    returns. *)
Definition preserves {S X A} (f : S -> X) (m : M S A) : Prop :=
  forall s, f (m s).1 = f s.

(** A socket factory that, as section 4.2 of the specification asks, produces
    exactly one new descriptor when it succeeds and none when it fails. *)
Definition creates_one_descriptor (mk : Z -> Z -> Z -> M World Z) : Prop :=
  forall domain typ proto w,
    match mk domain typ proto w with
    | (w', Ok fd) => (fd ∉ fds w) /\ (fds w' = {[fd]} ∪ fds w)
    | (w', Err _) => fds w' = fds w
    end.

(** Platform files whose socket factory is as above and whose other
    operations neither open nor close descriptors for good. *)
Definition platform_keeps_fds (P : Unix.Platform) : Prop :=
  creates_one_descriptor (Unix.newSocketCloexec P)
  /\ (forall fd, preserves fds (Unix.enableDeferAccept P fd))
  /\ (forall fd, preserves fds (Unix.enableFastOpen P fd))
  /\ (forall fd, preserves fds (Unix.enableNoDelay P fd))
  /\ (forall fd, preserves fds (Unix.enableQuickAck P fd))
  /\ preserves fds (Unix.soMaxConn P).

(** Two runs on the receiver, one starting from [c1] and one from [c2],
    that leave their receivers alone and agree on the world they reach and on
    what they return. *)
Definition sim {A} (c1 c2 : Unix.Config)
  (m1 m2 : M (Unix.Config * World) A) : Prop :=
  forall w,
    (m1 (c1, w)).1.1 = c1 /\ (m2 (c2, w)).1.1 = c2
    /\ (m1 (c1, w)).1.2 = (m2 (c2, w)).1.2
    /\ (m1 (c1, w)).2 = (m2 (c2, w)).2.

(** The log ends with the closing of descriptor [fd]: by [syscall.Close], by
    closing the file that wraps it, or by closing the file and then the
    listener built from it. *)
Definition closed_last (fd : Z) (cs : list call) : Prop :=
  exists h, cs = h ++ [Close fd] \/ cs = h ++ [FileClose fd]
            \/ exists fd2, cs = h ++ [FileClose fd; ListenerClose fd2].

(** ** Concrete environments used to exercise the theorems *)

Module Sample.

Definition darwin : Syscall :=
  {| SOL_SOCKET := 65535; SO_REUSEADDR := 4; SO_REUSEPORT := 512;
     IPPROTO_TCP := 6; TCP_NODELAY := 1; SOCK_STREAM := 1;
     AF_INET := 2; AF_INET6 := 30; SOMAXCONN := 128 |}.

Definition loopback : TCPAddr :=
  {| IP := [x7f; x00; x00; x01]; Port := 8080; Zone := "" |}.

Definition lookup_iface (ifaces : list (string * Z)) (name : string)
  : reply Interface :=
  match find (fun p => String.eqb (fst p) name) ifaces with
  | Some p => Reply {| Index := snd p; Name := name |}
  | None => Fault (LibError "route ip+net: no such network interface")
  end.

(** Calls selected by [bad] fail with EINVAL, every other call succeeds;
    every address resolves to [a]. *)
Definition os_of (bad : call -> bool) (a : TCPAddr)
  (ifaces : list (string * Z)) : OS :=
  {| sys_err := fun _ c => if bad c then Some (Errno 22) else None;
     net_ResolveTCPAddr := fun _ _ => Reply a;
     net_InterfaceByName := lookup_iface ifaces;
     os_Getpid := 4242;
     os_somaxconn := 4096;
     os_reuseport_opt := 15 |}.

Definition never (c : call) : bool := false.
Definition is_Bind (c : call) : bool :=
  match c with Bind _ _ => true | _ => false end.
Definition is_FileClose (c : call) : bool :=
  match c with FileClose _ => true | _ => false end.
Definition is_QueryBacklog (c : call) : bool :=
  match c with QueryBacklog => true | _ => false end.
Definition is_reuseport (c : call) : bool :=
  match c with
  | SetsockoptInt _ _ opt _ => (opt =? 15) || (opt =? 512)
  | _ => false
  end.
Definition is_EnableOption (o : tunable) (c : call) : bool :=
  match c, o with
  | EnableOption DeferAccept_opt _, DeferAccept_opt
  | EnableOption FastOpen_opt _, FastOpen_opt
  | EnableOption NoDelay_opt _, NoDelay_opt
  | EnableOption QuickAck_opt _, QuickAck_opt => true
  | _, _ => false
  end.

Definition quiet : OS := os_of never loopback [].

Definition ip6_loopback : list byte := replicate 15 x00 ++ [x01].
Definition unspecified : TCPAddr := {| IP := []; Port := 8080; Zone := "" |}.
Definition zoned : TCPAddr :=
  {| IP := ip6_loopback; Port := 443; Zone := "eth9" |}.

Definition start : World := {| fds := {[0; 1; 2]}; calls := [] |}.

Definition all_on (backlog : Z) : Unix.Config :=
  {| Unix.ReusePort := true; Unix.DeferAccept := true; Unix.FastOpen := true;
     Unix.NoDelay := true; Unix.QuickACK := true; Unix.Backlog := backlog |}.

Definition defaults : Unix.Config :=
  {| Unix.ReusePort := false; Unix.DeferAccept := false;
     Unix.FastOpen := false; Unix.NoDelay := false; Unix.QuickACK := false;
     Unix.Backlog := 0 |}.

Definition sa_loopback : Sockaddr :=
  SockaddrInet4 8080 [x7f; x00; x00; x01].

Definition bind_fails : OS := os_of is_Bind loopback [].
Definition fileclose_fails : OS := os_of is_FileClose loopback [].
Definition query_fails : OS := os_of is_QueryBacklog loopback [].
Definition fastopen_fails : OS :=
  os_of (is_EnableOption FastOpen_opt) loopback [].
Definition reuseport_fails : OS := os_of is_reuseport loopback [].
Definition no_such_zone : OS := os_of never zoned [].
Definition one_iface : OS := os_of never zoned [("eth9"%string, 7)].
Definition empty_host : OS := os_of never unspecified [].
Definition ip6_host : OS :=
  os_of never {| IP := ip6_loopback; Port := 8080; Zone := "" |} [].

Definition is_sockopt (level opt : Z) (c : call) : bool :=
  match c with
  | SetsockoptInt _ l o _ => (l =? level) && (o =? opt)
  | _ => false
  end.
Definition is_Listen (c : call) : bool :=
  match c with Listen _ _ => true | _ => false end.
Definition is_FileListener (c : call) : bool :=
  match c with FileListener _ => true | _ => false end.

Definition reuseaddr_fails : OS := os_of (is_sockopt 65535 4) loopback [].
Definition nodelay_fails : OS := os_of (is_sockopt 6 1) loopback [].
Definition listen_fails : OS := os_of is_Listen loopback [].
Definition filelistener_fails : OS := os_of is_FileListener loopback [].

(** No host resolves. *)
Definition resolver_fails : OS :=
  {| sys_err := fun _ _ => None;
     net_ResolveTCPAddr :=
       fun _ _ => Fault (LibError "lookup nowhere.invalid: no such host");
     net_InterfaceByName := lookup_iface [];
     os_Getpid := 4242;
     os_somaxconn := 4096;
     os_reuseport_opt := 15 |}.

(** 127.0.0.1 in the sixteen-byte form [net.ParseIP] produces. *)
Definition mapped_loopback : TCPAddr :=
  {| IP := v4InV6Prefix ++ [x7f; x00; x00; x01]; Port := 8080; Zone := "" |}.
Definition mapped_host : OS := os_of never mapped_loopback [].
Definition ip6_only : TCPAddr :=
  {| IP := ip6_loopback; Port := 8080; Zone := "" |}.

Definition wdefaults : Windows.Config :=
  {| Windows.ReusePort := false; Windows.DeferAccept := false;
     Windows.FastOpen := false; Windows.Backlog := 0 |}.

End Sample.

(** ** Proofs *)

Ltac case_sys :=
  match goal with
  | |- context [match sys_err ?h ?c with _ => _ end] =>
      destruct (sys_err h c) eqn:?
  end.

Lemma fds_open_close (X : gset Z) (x : Z) :
  x ∉ X -> ({[x]} ∪ X) ∖ {[x]} = X.
Proof. set_solver. Qed.

Lemma fds_open_close2 (X : gset Z) (x y : Z) :
  x ∉ X -> y ∉ {[x]} ∪ X -> (({[y]} ∪ ({[x]} ∪ X)) ∖ {[x]}) ∖ {[y]} = X.
Proof. set_solver. Qed.

(** *** Frame lemmas for the monad *)

Section Frames.
Context {sc : Syscall} {os : OS}.
Import Unix.

Lemma preserves_ret {S X A} (f : S -> X) (a : A) : preserves f (ret a).
Proof. done. Qed.

Lemma preserves_bind {S X A B} (f : S -> X) (m : M S A) (k : A -> M S B) :
  preserves f m -> (forall a, preserves f (k a)) -> preserves f (bind m k).
Proof.
  intros Hm Hk s. unfold bind. specialize (Hm s).
  destruct (m s) as [s' [a|e]]; simpl in *; [|done].
  by rewrite Hk.
Qed.

Lemma preserves_wrap {S X A} (f : S -> X) (g : error -> error) (m : M S A) :
  preserves f m -> preserves f (wrap g m).
Proof.
  intros Hm s. unfold wrap. specialize (Hm s).
  by destruct (m s) as [s' [a|e]].
Qed.

Lemma preserves_when {S X} (f : S -> X) (b : bool) (m : M S unit) :
  preserves f m -> preserves f (when b m).
Proof. destruct b; [done|]. intros _. apply preserves_ret. Qed.

Lemma preserves_cfg_field {X A} (f : Config * World -> X) (g : Config -> A) :
  preserves f (cfg_field g).
Proof. done. Qed.

Lemma preserves_sys (c : call) : preserves fds (sys c).
Proof. intros w. unfold sys. by destruct (sys_err _ _). Qed.

Lemma lift_keeps_cfg {A} (m : M World A) : preserves fst (lift m).
Proof. intros [c w]. unfold lift; simpl. by destruct (m w). Qed.

Lemma lift_keeps_fds {A} (m : M World A) :
  preserves fds m -> preserves (fun s : Config * World => fds s.2) (lift m).
Proof.
  intros Hm [c w]. unfold lift; simpl. specialize (Hm w). by destruct (m w).
Qed.

Ltac frame :=
  repeat first
    [ apply preserves_bind; [|intros ?]
    | apply preserves_wrap
    | apply preserves_when
    | apply lift_keeps_cfg
    | apply lift_keeps_fds
    | apply preserves_cfg_field
    | apply preserves_ret
    | apply preserves_sys
    | case_match
    | done ].

Lemma fdSetup_keeps_cfg (P : Platform) (fd : Z) (sa : Sockaddr)
  (addr : string) :
  preserves fst (fdSetup P fd sa addr).
Proof. unfold fdSetup. frame. Qed.

Lemma fdSetup_keeps_fds (P : Platform) (fd : Z) (sa : Sockaddr)
  (addr : string) :
  platform_keeps_fds P ->
  preserves (fun s : Config * World => fds s.2) (fdSetup P fd sa addr).
Proof.
  intros (_ & Hda & Hfo & Hnd & Hqa & Hmax).
  unfold fdSetup, syscall_SetsockoptInt, syscall_Bind, syscall_Listen.
  frame.
Qed.

Lemma factory_creates_one_descriptor :
  creates_one_descriptor SocketFactory.newSocketCloexec.
Proof.
  intros domain typ proto w.
  unfold SocketFactory.newSocketCloexec, wrap, acquire.
  case_sys; [done|]. split; [apply is_fresh|done].
Qed.


Lemma full_keeps_fds : platform_keeps_fds full.
Proof.
  split; [apply factory_creates_one_descriptor|].
  repeat split; try intros fd; simpl;
    unfold Full.enableDeferAccept, Full.enableFastOpen, Full.enableNoDelay,
      Full.enableQuickAck, Full.enable, Full.soMaxConn;
    repeat first [ apply preserves_wrap | apply preserves_sys
                 | apply preserves_bind; [|intros ?] | apply preserves_ret ].
Qed.

End Frames.

Section Refinement.
Context {sc : Syscall} {os : OS}.
Import Unix.

Lemma with_calls_nil (w : World) : with_calls w [] = w.
Proof. destruct w; unfold with_calls; simpl. by rewrite app_nil_r. Qed.

Lemma with_calls_logged (w : World) (c : call) (cs : list call) :
  with_calls (logged c w) cs = with_calls w (c :: cs).
Proof. unfold with_calls, logged; simpl. by rewrite <- app_assoc. Qed.

Lemma exec_ok (p : list step) (w : World) :
  all_ok (calls w) (map step_call p) = true ->
  exec p w = (with_calls w (map step_call p), Ok tt).
Proof.
  revert w; induction p as [|s p IH]; intros w Hok; simpl in *.
  - by rewrite with_calls_nil.
  - unfold bind, wrap, sys.
    destruct (sys_err (calls w) (step_call s)); [discriminate|].
    rewrite IH by exact Hok. by rewrite with_calls_logged.
Qed.

Lemma exec_fail (pre : list step) (s : step) (post : list step) (w : World)
  (cause : ext_error) :
  all_ok (calls w) (map step_call pre) = true ->
  sys_err (calls w ++ map step_call pre) (step_call s) = Some cause ->
  exec (pre ++ s :: post) w
  = (with_calls w (map step_call pre ++ [step_call s]),
     Err (step_wrap s (External cause))).
Proof.
  revert w; induction pre as [|t pre IH]; intros w Hok Hs; simpl in *.
  - unfold bind, wrap, sys. rewrite app_nil_r in Hs. by rewrite Hs.
  - unfold bind, wrap, sys.
    destruct (sys_err (calls w) (step_call t)); [discriminate|].
    rewrite IH; simpl.
    + by rewrite with_calls_logged.
    + exact Hok.
    + by rewrite <- app_assoc.
Qed.

(** The two ways a run of steps can end. *)
Lemma exec_cases (p : list step) (w : World) :
  (all_ok (calls w) (map step_call p) = true
   /\ exec p w = (with_calls w (map step_call p), Ok tt))
  \/ (exists pre s post cause,
        p = pre ++ s :: post
        /\ all_ok (calls w) (map step_call pre) = true
        /\ sys_err (calls w ++ map step_call pre) (step_call s) = Some cause
        /\ exec p w = (with_calls w (map step_call pre ++ [step_call s]),
                       Err (step_wrap s (External cause)))).
Proof.
  revert w; induction p as [|s p IH]; intros w.
  - left. split; [done|]. by apply exec_ok.
  - destruct (sys_err (calls w) (step_call s)) as [cause|] eqn:Hs.
    + right. exists [], s, p, cause. simpl. rewrite app_nil_r.
      split; [done|]. split; [done|]. split; [done|].
      apply (exec_fail [] s p w cause); simpl; [done|by rewrite app_nil_r].
    + destruct (IH (logged (step_call s) w))
        as [[Hok _]|(pre & t & post & cause & -> & Hok & Ht & _)].
      * left. assert (Hall : all_ok (calls w) (map step_call (s :: p)) = true)
          by (simpl; by rewrite Hs).
        split; [done|]. by apply exec_ok.
      * right. exists (s :: pre), t, post, cause.
        assert (Hall : all_ok (calls w) (map step_call (s :: pre)) = true)
          by (simpl; by rewrite Hs).
        assert (Ht' : sys_err (calls w ++ map step_call (s :: pre))
                              (step_call t)
                      = Some cause).
        { simpl in *. by rewrite <- app_assoc in Ht. }
        split; [done|]. split; [done|]. split; [done|].
        by apply (exec_fail (s :: pre) t post w cause).
Qed.

Lemma fdSetup_exec (v : variant) (cfg : Config) (fd : Z) (sa : Sockaddr)
  (addr : string) (w : World) :
  fdSetup (platform v) fd sa addr (cfg, w)
  = let (w', r) := exec (setup_steps v cfg fd sa addr) w in ((cfg, w'), r).
Proof.
  destruct cfg as [rp da fo nd qa b].
  assert (Hb : (0 <? b) = negb (b <=? 0)).
  { destruct (Z.leb_spec b 0), (Z.ltb_spec 0 b); simpl; auto; lia. }
  unfold setup_steps, backlog_query_steps, listen_step, effective_backlog,
    fdSetup, cfg_field, bind, wrap, lift, when; simpl.
  unfold syscall_SetsockoptInt, syscall_Bind, syscall_Listen, sys, bind.
  rewrite Hb; clear Hb.
  destruct (b <=? 0) eqn:Hle, v, rp, da, fo, nd, qa; simpl;
  unfold Full.enableDeferAccept, Full.enableFastOpen, Full.enableNoDelay,
    Full.enableQuickAck, Full.enable, Full.soMaxConn, sys, wrap, bind, ret;
  simpl;
  repeat (match goal with
          | |- context [b <=? 0] => rewrite Hle; simpl
          | |- context [sys_err ?h ?c] => destruct (sys_err h c); simpl
          end; try reflexivity).
Qed.

End Refinement.

(** *** Runs of the pipeline against the sequence of steps *)

Section Order.
Context {sc : Syscall} {os : OS}.
Import Unix.

Lemma setup_steps_calls (v : variant) (cfg : Config) (fd : Z) (sa : Sockaddr)
  (addr : string) :
  map step_call (setup_steps v cfg fd sa addr) = setup_calls v cfg fd sa.
Proof.
  unfold setup_steps, setup_calls, requested_steps.
  rewrite !map_app, map_map. reflexivity.
Qed.

Lemma exec_prefix (p : list step) (w : World) :
  exists done,
    (exec p w).1 = with_calls w done
    /\ done `prefix_of` map step_call p
    /\ (is_ok (exec p w).2 = true -> done = map step_call p)
    /\ (all_ok (calls w) (map step_call p) = true -> is_ok (exec p w).2 = true).
Proof.
  destruct (exec_cases p w)
    as [[Hok ->]|(pre & s & post & x & -> & Hok & Hs & ->)].
  - exists (map step_call p). simpl. done.
  - exists (map step_call pre ++ [step_call s]). simpl.
    split; [done|]. split.
    + exists (map step_call post). rewrite map_app. simpl.
      by rewrite <- app_assoc.
    + split; [done|]. intros Hall. exfalso.
      rewrite map_app in Hall. simpl in Hall.
      clear -Hall Hs Hok. revert w Hall Hs Hok.
      induction pre as [|t pre IH]; intros w Hall Hs Hok; simpl in *.
      * rewrite app_nil_r in Hs. by rewrite Hs in Hall.
      * destruct (sys_err (calls w) (step_call t)); [done|].
        apply (IH (logged (step_call t) w)); simpl; [done| |done].
        by rewrite <- app_assoc.
Qed.

Lemma requested_options_not_Listen (v : variant) (cfg : Config)
  (fd fd' b : Z) :
  Listen fd' b ∉ map snd (requested_options v cfg fd).
Proof.
  unfold requested_options, tunable_request.
  destruct v, (ReusePort cfg), (DeferAccept cfg), (FastOpen cfg),
    (NoDelay cfg), (QuickACK cfg); simpl;
    repeat (apply not_elem_of_cons; split; [discriminate|]);
    apply not_elem_of_nil.
Qed.

Lemma setup_calls_Listen (v : variant) (cfg : Config) (fd : Z)
  (sa : Sockaddr) (fd' b : Z) :
  Listen fd' b ∈ setup_calls v cfg fd sa ->
  fd' = fd /\ b = effective_backlog v cfg.
Proof.
  unfold setup_calls. rewrite !elem_of_app, !elem_of_cons.
  intros [H|[H|[H|[H|H]]]].
  - destruct H as [H|[H|H]]; [discriminate|discriminate|].
    by apply elem_of_nil in H.
  - by apply requested_options_not_Listen in H.
  - destruct H as [H|H]; [discriminate|]. by apply elem_of_nil in H.
  - unfold backlog_query_steps in H.
    destruct (0 <? Backlog cfg), v; simpl in H;
      try (by apply elem_of_nil in H).
    apply elem_of_cons in H as [H|H]; [discriminate|].
    by apply elem_of_nil in H.
  - destruct H as [H|H]; [by injection H|]. by apply elem_of_nil in H.
Qed.

(** When a step of the setup fails, [NewListener] closes the socket and
    returns that step's error. *)
Lemma NewListener_fails_at (v : variant) (network addr : string)
  (cfg : Config) (w : World) (sa : Sockaddr) (soType : Z)
  (pre : list step) (s : step) (post : list step) (x : ext_error) :
  getSockaddr network addr = Ok (sa, soType) ->
  let fd := fresh (fds w) in
  let before := Socket soType SOCK_STREAM IPPROTO_TCP true
                :: map step_call pre in
  setup_steps v cfg fd sa addr = pre ++ s :: post ->
  all_ok (calls w) before = true ->
  sys_err (calls w ++ before) (step_call s) = Some x ->
  NewListener (platform v) network addr cfg w
  = ({| fds := fds w;
        calls := calls w ++ before ++ [step_call s; Close fd] |},
     Err (step_wrap s (External x))).
Proof.
  intros Hsa fd before Hsplit Hok Hs.
  unfold NewListener. rewrite Hsa.
  assert (Hmk : newSocketCloexec (platform v)
                = SocketFactory.newSocketCloexec) by (by destruct v).
  rewrite Hmk. unfold SocketFactory.newSocketCloexec, wrap, acquire.
  subst before. simpl in Hok.
  destruct (sys_err (calls w) _) eqn:Hsock; [discriminate|].
  fold fd. rewrite fdSetup_exec, Hsplit.
  rewrite (exec_fail pre s post _ x); simpl; [|done|].
  2:{ rewrite <- Hs. f_equal. by rewrite <- app_assoc. }
  unfold syscall_Close, release; simpl.
  assert (Hfds : ({[fd]} ∪ fds w) ∖ {[fd]} = fds w)
    by (apply fds_open_close, is_fresh).
  rewrite Hfds.
  assert (Hcalls : ((calls w ++ [Socket soType SOCK_STREAM IPPROTO_TCP true])
                      ++ map step_call pre ++ [step_call s]) ++ [Close fd]
                   = calls w ++ Socket soType SOCK_STREAM IPPROTO_TCP true
                       :: map step_call pre ++ [step_call s; Close fd]).
  { by rewrite <- !app_assoc. }
  rewrite Hcalls. by case_sys.
Qed.

Lemma setup_steps_without_tunables (cfg : Config) (fd : Z) (sa : Sockaddr)
  (addr : string) :
  setup_steps BSD (without_tunables cfg) fd sa addr
  = setup_steps BSD cfg fd sa addr.
Proof.
  unfold setup_steps, requested_steps, requested_options, tunable_request,
    listen_step, effective_backlog, backlog_query_steps; simpl.
  by destruct (DeferAccept cfg), (FastOpen cfg), (NoDelay cfg),
    (QuickACK cfg).
Qed.

End Order.

(** *** Address resolution *)

Section Addresses.
Context {sc : Syscall} {os : OS}.
Import Unix.

Lemma copy_into_length (n : nat) (src : list byte) :
  length (copy_into n src) = n.
Proof.
  unfold copy_into. rewrite length_app, length_replicate, length_take. lia.
Qed.

Lemma getSockaddr_unsupported (network addr : string) :
  network <> "tcp"%string -> network <> "tcp4"%string ->
  network <> "tcp6"%string ->
  getSockaddr network addr
  = Err (errors_New "only tcp4 and tcp6 network is supported").
Proof.
  intros H1 H2 H3. unfold getSockaddr.
  apply String.eqb_neq in H1, H2, H3. by rewrite H1, H2, H3.
Qed.

End Addresses.
(** ** The claims *)

Section Claims.
Context {sc : Syscall} {os : OS}.
Import Unix.

(** C1.  Whatever the platform files do, as long as the socket factory
    creates exactly one descriptor and the other operations keep the
    descriptor table: a call of [NewListener] that returns an error leaves the
    descriptor table as it found it, and when the socket had been created the
    last thing the call did was to close it (directly, through the wrapping
    file, or through the file and then the listener built from it). *)
Theorem NewListener_closes_on_failure (P : Platform) (network addr : string)
  (cfg : Config) (w w' : World) (e : error) :
  platform_keeps_fds P ->
  NewListener P network addr cfg w = (w', Err e) ->
  fds w' = fds w
  /\ (forall sa soType w1 fd,
        getSockaddr network addr = Ok (sa, soType) ->
        newSocketCloexec P soType SOCK_STREAM IPPROTO_TCP w = (w1, Ok fd) ->
        closed_last fd (calls w')).
Proof.
  intros HP. unfold NewListener.
  destruct (getSockaddr network addr) as [[sa soType]|e0].
  2:{ intros [= <- _]. split; [done|]. intros ? ? ? ? [=]. }
  pose proof (proj1 HP soType SOCK_STREAM IPPROTO_TCP w) as Hmk.
  destruct (newSocketCloexec P soType SOCK_STREAM IPPROTO_TCP w)
    as [w1 [fd|e0]] eqn:Hsock.
  2:{ intros [= <- _]. split; [done|].
      intros ? ? ? ? [= <- <-] Hx. by rewrite Hsock in Hx. }
  destruct Hmk as [Hfresh Hw1].
  pose proof (fdSetup_keeps_fds P fd sa addr HP (cfg, w1)) as Hfds.
  destruct (fdSetup P fd sa addr (cfg, w1)) as [[c2 w2] [[]|e2]];
    simpl in Hfds; rewrite Hw1 in Hfds.
  - unfold net_FileListener, bind, acquire, File_Close, Listener_Close,
      release, ret; simpl.
    pose proof (is_fresh (fds w2)) as Hfresh2. rewrite Hfds in Hfresh2.
    case_sys; simpl.
    + case_sys; intros [= <- _]; simpl;
        (split; [rewrite Hfds; by apply fds_open_close|]);
        intros ? ? ? ? [= <- <-] Hx; rewrite Hsock in Hx;
        injection Hx as <- <-;
        exists (calls w2 ++ [FileListener fd]); right; left; done.
    + case_sys; [|discriminate].
      case_sys; intros [= <- _]; simpl;
        (split; [rewrite Hfds; by apply fds_open_close2|]);
        intros ? ? ? ? [= <- <-] Hx; rewrite Hsock in Hx;
        injection Hx as <- <-;
        exists (calls w2 ++ [FileListener fd]); right; right;
        exists (fresh (fds w2)); by rewrite <- app_assoc.
  - unfold syscall_Close, release.
    case_sys; intros [= <- _]; simpl;
      (split; [rewrite Hfds; by apply fds_open_close|]);
      intros ? ? ? ? [= <- <-] Hx; rewrite Hsock in Hx;
      injection Hx as <- <-; exists (calls w2); by left.
Qed.

(** C2.  On either variant, the calls [fdSetup] makes are a prefix of the
    fixed sequence: reuse-address, TCP_NODELAY, then the requested options in
    the order port sharing, deferred accept, fast open, no-delay, quick-ack,
    then bind, then the backlog query if one is needed, then listen.  A run
    that succeeds has made exactly the whole sequence, and a run in which
    every call of the sequence succeeds does succeed. *)
Theorem fdSetup_call_order (v : variant) (cfg : Config) (fd : Z)
  (sa : Sockaddr) (addr : string) (w : World) :
  let r := fdSetup (platform v) fd sa addr (cfg, w) in
  exists done,
    calls r.1.2 = calls w ++ done
    /\ done `prefix_of` setup_calls v cfg fd sa
    /\ (is_ok r.2 = true -> done = setup_calls v cfg fd sa)
    /\ (all_ok (calls w) (setup_calls v cfg fd sa) = true
        -> is_ok r.2 = true).
Proof.
  simpl. rewrite fdSetup_exec.
  destruct (exec_prefix (setup_steps v cfg fd sa addr) w)
    as (done & Hw & Hpre & Hok & Hall).
  rewrite setup_steps_calls in *.
  destruct (exec _ w) as [w' r]; simpl in *. subst w'.
  exists done. done.
Qed.

(** C3, amended.  On the descriptor-based variant, whatever the platform
    files, a network other than tcp, tcp4 and tcp6 makes [NewListener] fail at
    once with the unsupported-network error, leaving the world untouched: no
    call is made and no descriptor created.  The pass-through variant checks
    nothing itself: its result is that of the generic listen primitive. *)
Theorem NewListener_unsupported_network (P : Platform)
  (network addr : string) (cfg : Config) (w : World) :
  network <> "tcp"%string -> network <> "tcp4"%string ->
  network <> "tcp6"%string ->
  NewListener P network addr cfg w
  = (w, Err (errors_New "only tcp4 and tcp6 network is supported"))
  /\ forall wcfg,
      Windows.NewListener network addr wcfg w = net_Listen network addr w.
Proof.
  intros H1 H2 H3. split; [|done].
  unfold NewListener. by rewrite getSockaddr_unsupported.
Qed.

(** C4.  Every listen call [fdSetup] makes is on its descriptor and carries
    [Backlog] when that is positive and the platform's maximum otherwise; a
    successful run ends with that call; the platform's backlog query, when it
    answers, answers that maximum; and when the query is needed and fails on
    the full-featured variant, [NewListener] closes the socket and fails with
    the backlog-query error. *)
Theorem listen_backlog (v : variant) (cfg : Config) :
  let backlog :=
    if 0 <? Backlog cfg then Backlog cfg else maxPendingBacklog v in
  (forall fd sa addr w done fd' b,
      calls (fdSetup (platform v) fd sa addr (cfg, w)).1.2 = calls w ++ done ->
      Listen fd' b ∈ done ->
      fd' = fd /\ b = backlog)
  /\ (forall fd sa addr w,
        is_ok (fdSetup (platform v) fd sa addr (cfg, w)).2 = true ->
        exists h,
          calls (fdSetup (platform v) fd sa addr (cfg, w)).1.2
          = h ++ [Listen fd backlog])
  /\ (forall w0 w1 z,
        soMaxConn (platform v) w0 = (w1, Ok z) -> z = maxPendingBacklog v)
  /\ (forall network addr w sa soType x,
        getSockaddr network addr = Ok (sa, soType) ->
        Backlog cfg <= 0 ->
        let fd := fresh (fds w) in
        let before := [ Socket soType SOCK_STREAM IPPROTO_TCP true;
                        SetsockoptInt fd SOL_SOCKET SO_REUSEADDR 1;
                        SetsockoptInt fd IPPROTO_TCP TCP_NODELAY 1 ]
                      ++ map snd (requested_options FULL cfg fd)
                      ++ [ Bind fd sa ] in
        all_ok (calls w) before = true ->
        sys_err (calls w ++ before) QueryBacklog = Some x ->
        NewListener full network addr cfg w
        = ({| fds := fds w;
              calls := calls w ++ before ++ [QueryBacklog; Close fd] |},
           Err (fmt_Errorf
                  "cannot determine backlog to pass to listen(2): %s" []
                  (External x)))).
Proof.
  intros backlog. split; [|split; [|split]].
  - intros fd sa addr w. rewrite fdSetup_exec.
    destruct (exec_prefix (setup_steps v cfg fd sa addr) w)
      as (done0 & Hw & Hpre & _ & _).
    rewrite setup_steps_calls in *.
    destruct (exec _ w) as [w' r]; simpl in *. subst w'. simpl.
    intros done fd' b Hdone Hin. apply app_inv_head in Hdone. subst done0.
    destruct Hpre as [k Hk].
    apply (setup_calls_Listen v cfg fd sa). rewrite Hk.
    apply elem_of_app. by left.
  - intros fd sa addr w. rewrite fdSetup_exec.
    destruct (exec_prefix (setup_steps v cfg fd sa addr) w)
      as (done0 & Hw & _ & Hok & _).
    rewrite setup_steps_calls in *.
    destruct (exec _ w) as [w' r]; simpl in *. subst w'. simpl.
    intros Hr. rewrite (Hok Hr). unfold setup_calls.
    eexists. rewrite !app_assoc. reflexivity.
  - intros w0 w1 z. destruct v; simpl.
    + by intros [= _ <-].
    + unfold Full.soMaxConn, bind, sys, ret.
      by case_sys; intros [= _ <-].
  - intros network addr w sa soType x Hsa Hle fd before Hall Hq.
    set (pre := mandatory_steps fd ++ requested_steps FULL cfg fd
                ++ [bind_step fd sa addr]).
    assert (Hbefore : Socket soType SOCK_STREAM IPPROTO_TCP true
                      :: map step_call pre = before).
    { unfold pre, before, requested_steps. rewrite !map_app, map_map.
      reflexivity. }
    pose proof (NewListener_fails_at FULL network addr cfg w sa soType pre
                  {| step_call := QueryBacklog;
                     step_wrap :=
                       fmt_Errorf
                         "cannot determine backlog to pass to listen(2): %s"
                         [] |}
                  [listen_step FULL cfg fd addr] x Hsa) as Hfail.
    cbv zeta in Hfail. fold fd in Hfail. rewrite Hbefore in Hfail.
    apply Hfail; [|done|done].
    unfold setup_steps, backlog_query_steps, pre.
    assert (Hlt : (0 <? Backlog cfg) = false) by (apply Z.ltb_ge; lia).
    rewrite Hlt. by rewrite <- !app_assoc.
Qed.

(** C5.  On the BSD variant each of the four tunables returns success and
    leaves the world as it was, so [NewListener] behaves exactly as it does
    with the four flags switched off: asking for them changes neither the
    result nor the calls made. *)
Theorem bsd_tunables_never_fail :
  (forall fd w, Bsd.enableDeferAccept fd w = (w, Ok tt))
  /\ (forall fd w, Bsd.enableFastOpen fd w = (w, Ok tt))
  /\ (forall fd w, Bsd.enableNoDelay fd w = (w, Ok tt))
  /\ (forall fd w, Bsd.enableQuickAck fd w = (w, Ok tt))
  /\ (forall network addr cfg w,
        NewListener bsd network addr cfg w
        = NewListener bsd network addr (without_tunables cfg) w).
Proof.
  repeat (split; [done|]).
  intros network addr cfg w. unfold NewListener.
  destruct (getSockaddr network addr) as [[sa soType]|e0]; [|done].
  destruct (newSocketCloexec bsd soType SOCK_STREAM IPPROTO_TCP w)
    as [w1 [fd|e0]]; [|done].
  change bsd with (platform BSD).
  rewrite !fdSetup_exec, setup_steps_without_tunables.
  by destruct (exec _ w1).
Qed.

(** C6.  When a requested option (port sharing, or on the full-featured
    variant one of the four tunables) is the first call to fail,
    [NewListener] stops there: nothing is bound, the socket is closed, and the
    error returned is the kernel's, wrapped with the name of that option.  In
    particular, with [ReusePort] set, a failure to enable port sharing aborts
    construction with the SO_REUSEPORT error. *)
Theorem requested_option_failure_is_named (v : variant)
  (network addr : string) (cfg : Config) (w : World) (sa : Sockaddr)
  (soType : Z) :
  getSockaddr network addr = Ok (sa, soType) ->
  let fd := fresh (fds w) in
  let start := [ Socket soType SOCK_STREAM IPPROTO_TCP true;
                 SetsockoptInt fd SOL_SOCKET SO_REUSEADDR 1;
                 SetsockoptInt fd IPPROTO_TCP TCP_NODELAY 1 ] in
  (forall pre name c post x,
      requested_options v cfg fd = pre ++ (name, c) :: post ->
      all_ok (calls w) (start ++ map snd pre) = true ->
      sys_err (calls w ++ start ++ map snd pre) c = Some x ->
      NewListener (platform v) network addr cfg w
      = ({| fds := fds w;
            calls := calls w ++ (start ++ map snd pre) ++ [c; Close fd] |},
         Err (fmt_Errorf ("cannot enable " +:+ name +:+ ": %s") []
                         (External x))))
  /\ (forall x,
        ReusePort cfg = true ->
        all_ok (calls w) start = true ->
        sys_err (calls w ++ start)
                (SetsockoptInt fd SOL_SOCKET (soReusePort (platform v)) 1)
        = Some x ->
        (NewListener (platform v) network addr cfg w).2
        = Err (fmt_Errorf "cannot enable SO_REUSEPORT: %s" [] (External x))).
Proof.
  intros Hsa fd start.
  assert (Hgen : forall pre name c post x,
      requested_options v cfg fd = pre ++ (name, c) :: post ->
      all_ok (calls w) (start ++ map snd pre) = true ->
      sys_err (calls w ++ start ++ map snd pre) c = Some x ->
      NewListener (platform v) network addr cfg w
      = ({| fds := fds w;
            calls := calls w ++ (start ++ map snd pre) ++ [c; Close fd] |},
         Err (fmt_Errorf ("cannot enable " +:+ name +:+ ": %s") []
                         (External x)))).
  { intros pre name c post x Hsplit Hok Hs.
    pose proof (NewListener_fails_at v network addr cfg w sa soType
                  (mandatory_steps fd ++ map option_step pre)
                  (option_step (name, c))
                  (map option_step post ++ [bind_step fd sa addr]
                   ++ backlog_query_steps v cfg
                   ++ [listen_step v cfg fd addr])
                  x Hsa) as Hfail.
    simpl in Hfail. rewrite map_map in Hfail.
    apply Hfail; clear Hfail; try done.
    unfold setup_steps, requested_steps. fold fd. rewrite Hsplit.
    rewrite map_app. simpl. by rewrite <- !app_assoc. }
  split; [exact Hgen|].
  intros x Hrp Hok Hs.
  assert (Hsplit : exists post,
             requested_options v cfg fd
             = [] ++ ("SO_REUSEPORT"%string,
                      SetsockoptInt fd SOL_SOCKET (soReusePort (platform v)) 1)
                     :: post).
  { unfold requested_options. rewrite Hrp. simpl. eauto. }
  destruct Hsplit as [post Hsplit].
  rewrite (Hgen [] _ _ post x Hsplit); [done|exact Hok|exact Hs].
Qed.

(** C7.  When the address resolves: for tcp and tcp4 [getSockaddr] yields an
    IPv4 socket address, four bytes and the resolved port, in family AF_INET;
    for tcp6 an IPv6 socket address, sixteen bytes and the resolved port, in
    family AF_INET6, with zone index 0 when there is no zone and the index of
    the named interface when there is one; and when the zone names no
    interface, [getSockaddr] fails with the lookup's error and [NewListener]
    returns it without touching the world, so no socket is created. *)
Theorem getSockaddr_families (network addr : string) (a : TCPAddr) :
  net_ResolveTCPAddr network addr = Reply a ->
  let ip4 := copy_into 4 (To4 (IP a)) in
  let ip16 := copy_into 16 (To16 (IP a)) in
  (network = "tcp"%string \/ network = "tcp4"%string ->
   length ip4 = 4%nat
   /\ getSockaddr network addr = Ok (SockaddrInet4 (Port a) ip4, AF_INET))
  /\ (network = "tcp6"%string ->
      length ip16 = 16%nat
      /\ (Zone a = ""%string ->
          getSockaddr network addr
          = Ok (SockaddrInet6 (Port a) 0 ip16, AF_INET6))
      /\ (Zone a <> ""%string ->
          match net_InterfaceByName (Zone a) with
          | Reply ifi =>
              getSockaddr network addr
              = Ok (SockaddrInet6 (Port a) (uint32 (Index ifi)) ip16,
                    AF_INET6)
          | Fault x =>
              getSockaddr network addr = Err (External x)
              /\ forall P cfg w,
                  NewListener P network addr cfg w = (w, Err (External x))
          end)).
Proof.
  intros Hres ip4 ip16. split.
  - intros Hnet. split; [apply copy_into_length|].
    unfold getSockaddr. rewrite Hres. by destruct Hnet as [-> | ->].
  - intros ->. split; [apply copy_into_length|].
    unfold NewListener, getSockaddr. rewrite Hres. simpl. split.
    + by intros ->.
    + intros Hz. apply String.eqb_neq in Hz. rewrite Hz. simpl.
      destruct (net_InterfaceByName (Zone a)); done.
Qed.

(** C8.  Whatever the platform files do, and whether it succeeds or fails,
    [fdSetup] leaves the [Config] it was called on exactly as it was;
    [NewListener] takes its [Config] by value and hands [fdSetup] its own
    copy. *)
Theorem fdSetup_leaves_Config (P : Platform) (fd : Z) (sa : Sockaddr)
  (addr : string) (cfg : Config) (w : World) :
  (fdSetup P fd sa addr (cfg, w)).1.1 = cfg.
Proof. apply (fdSetup_keeps_cfg P fd sa addr (cfg, w)). Qed.

(** C9.  For tcp and tcp4, when the resolved IP has no four-byte form,
    [getSockaddr] still succeeds and the address of the result is
    0.0.0.0. *)
Theorem getSockaddr_wildcard_without_IPv4_form (network addr : string)
  (a : TCPAddr) :
  network = "tcp"%string \/ network = "tcp4"%string ->
  net_ResolveTCPAddr network addr = Reply a ->
  To4 (IP a) = [] ->
  getSockaddr network addr
  = Ok (SockaddrInet4 (Port a) [x00; x00; x00; x00], AF_INET).
Proof.
  intros Hnet Hres Hnil. unfold getSockaddr. rewrite Hres, Hnil.
  by destruct Hnet as [-> | ->].
Qed.

(** C10.  [getSockaddr] never returns the error of the default branch of its
    switch, whatever the network, the address and the environment. *)
Theorem getSockaddr_default_unreachable (network addr : string) :
  getSockaddr network addr
  <> Err (errors_New ("Unknown network type " +:+ network)).
Proof.
  unfold getSockaddr.
  destruct (String.eqb_spec network "tcp") as [->|H1]; simpl.
  { by destruct (net_ResolveTCPAddr _ _). }
  destruct (String.eqb_spec network "tcp4") as [->|H2]; simpl.
  { by destruct (net_ResolveTCPAddr _ _). }
  destruct (String.eqb_spec network "tcp6") as [->|H3]; simpl.
  2:{ discriminate. }
  destruct (net_ResolveTCPAddr _ _) as [a|x]; [|done].
  destruct (negb _); [|done].
  by destruct (net_InterfaceByName _).
Qed.

End Claims.

(** ** The theorems at concrete inputs *)

Section Witnesses.
Import Unix Sample.

(** A bind that fails, as when the address is in use: the socket is closed
    and the error names the address. *)
Example bind_failure_run :
  @NewListener darwin bind_fails (@bsd darwin bind_fails)
    "tcp4" "127.0.0.1:8080" defaults start
  = ({| fds := fds start;
        calls := [ Socket 2 1 6 true;
                   SetsockoptInt 3 65535 4 1; SetsockoptInt 3 6 1 1;
                   Bind 3 sa_loopback; Close 3 ] |},
     Err (fmt_Errorf "cannot bind to %q: %s" ["127.0.0.1:8080"%string]
            (External (Errno 22)))).
Proof. vm_compute. reflexivity. Qed.

(** A run in which everything succeeds hands back a listener on a descriptor
    of its own; the socket's descriptor has been closed with the file. *)
Example successful_run :
  @NewListener darwin quiet (@bsd darwin quiet) "tcp4" "127.0.0.1:8080"
    (all_on 17) start
  = ({| fds := {[4]} ∪ fds start;
        calls := [ Socket 2 1 6 true;
                   SetsockoptInt 3 65535 4 1; SetsockoptInt 3 6 1 1;
                   SetsockoptInt 3 65535 512 1;
                   Bind 3 sa_loopback; Listen 3 17;
                   FileListener 3; FileClose 3 ] |},
     Ok {| ln_fd := 4 |}).
Proof. vm_compute. reflexivity. Qed.

Lemma NewListener_closes_on_failure_witness :
  (@NewListener darwin fileclose_fails (@full fileclose_fails)
     "tcp4" "127.0.0.1:8080" (all_on 0) start).2
  = Err (External (Errno 22))
  /\ fds (@NewListener darwin fileclose_fails (@full fileclose_fails)
            "tcp4" "127.0.0.1:8080" (all_on 0) start).1
     = fds start
  /\ closed_last 3
       (calls (@NewListener darwin fileclose_fails (@full fileclose_fails)
                 "tcp4" "127.0.0.1:8080" (all_on 0) start).1).
Proof.
  pose (r := @NewListener darwin fileclose_fails (@full fileclose_fails)
               "tcp4" "127.0.0.1:8080" (all_on 0) start).
  assert (Hrun : r = (r.1, Err (External (Errno 22))))
    by (vm_compute; reflexivity).
  destruct (@NewListener_closes_on_failure darwin fileclose_fails
              (@full fileclose_fails) "tcp4" "127.0.0.1:8080" (all_on 0)
              start r.1 (External (Errno 22)) full_keeps_fds Hrun)
    as [Hfds Hlog].
  split; [vm_compute; reflexivity|]. split; [exact Hfds|].
  apply (Hlog sa_loopback 2
           {| fds := {[3]} ∪ fds start; calls := [Socket 2 1 6 true] |} 3);
    vm_compute; reflexivity.
Defined.

Lemma fdSetup_call_order_witness :
  calls (@fdSetup darwin quiet (@platform darwin quiet FULL) 3 sa_loopback
           "127.0.0.1:8080" (all_on 0, start)).1.2
  = [ SetsockoptInt 3 65535 4 1; SetsockoptInt 3 6 1 1;
      SetsockoptInt 3 65535 15 1;
      EnableOption DeferAccept_opt 3; EnableOption FastOpen_opt 3;
      EnableOption NoDelay_opt 3; EnableOption QuickAck_opt 3;
      Bind 3 sa_loopback; QueryBacklog; Listen 3 4096 ].
Proof.
  destruct (@fdSetup_call_order darwin quiet FULL (all_on 0) 3 sa_loopback
              "127.0.0.1:8080" start)
    as (done & Hcalls & _ & Hdone & Hok).
  rewrite Hcalls, (Hdone (Hok ltac:(vm_compute; reflexivity))).
  vm_compute. reflexivity.
Defined.

Lemma NewListener_unsupported_network_witness :
  @NewListener darwin quiet (@bsd darwin quiet) "udp" "127.0.0.1:53"
    defaults start
  = (start, Err (errors_New "only tcp4 and tcp6 network is supported")).
Proof.
  apply (proj1 (@NewListener_unsupported_network darwin quiet
                  (@bsd darwin quiet) "udp" "127.0.0.1:53" defaults start
                  ltac:(discriminate) ltac:(discriminate)
                  ltac:(discriminate))).
Defined.

Lemma listen_backlog_witness :
  (3 = 3 /\ 17 = 17)
  /\ @NewListener darwin query_fails (@full query_fails) "tcp4"
       "127.0.0.1:8080" (all_on 0) start
     = ({| fds := fds start;
           calls := [ Socket 2 1 6 true;
                      SetsockoptInt 3 65535 4 1; SetsockoptInt 3 6 1 1;
                      SetsockoptInt 3 65535 15 1;
                      EnableOption DeferAccept_opt 3;
                      EnableOption FastOpen_opt 3;
                      EnableOption NoDelay_opt 3;
                      EnableOption QuickAck_opt 3;
                      Bind 3 sa_loopback; QueryBacklog; Close 3 ] |},
        Err (fmt_Errorf "cannot determine backlog to pass to listen(2): %s"
               [] (External (Errno 22)))).
Proof.
  split.
  - apply (proj1 (@listen_backlog darwin quiet FULL (all_on 17))
             3 sa_loopback "127.0.0.1:8080" start
             [ SetsockoptInt 3 65535 4 1; SetsockoptInt 3 6 1 1;
               SetsockoptInt 3 65535 15 1;
               EnableOption DeferAccept_opt 3; EnableOption FastOpen_opt 3;
               EnableOption NoDelay_opt 3; EnableOption QuickAck_opt 3;
               Bind 3 sa_loopback; Listen 3 17 ] 3 17).
    + vm_compute. reflexivity.
    + do 8 apply list_elem_of_further. apply list_elem_of_here.
  - apply (proj2 (proj2 (proj2 (@listen_backlog darwin query_fails FULL
                                  (all_on 0))))
             "tcp4"%string "127.0.0.1:8080"%string start sa_loopback 2
             (Errno 22)).
    + vm_compute. reflexivity.
    + vm_compute. discriminate.
    + vm_compute. reflexivity.
    + vm_compute. reflexivity.
Defined.

Lemma requested_option_failure_is_named_witness :
  @NewListener darwin fastopen_fails (@full fastopen_fails) "tcp4"
    "127.0.0.1:8080" (all_on 0) start
  = ({| fds := fds start;
        calls := [ Socket 2 1 6 true;
                   SetsockoptInt 3 65535 4 1; SetsockoptInt 3 6 1 1;
                   SetsockoptInt 3 65535 15 1;
                   EnableOption DeferAccept_opt 3;
                   EnableOption FastOpen_opt 3; Close 3 ] |},
     Err (fmt_Errorf "cannot enable TCP_FASTOPEN: %s" []
            (External (Errno 22))))
  /\ (@NewListener darwin reuseport_fails (@bsd darwin reuseport_fails)
        "tcp4" "127.0.0.1:8080" (all_on 0) start).2
     = Err (fmt_Errorf "cannot enable SO_REUSEPORT: %s" []
              (External (Errno 22))).
Proof.
  split.
  - apply (proj1 (@requested_option_failure_is_named darwin fastopen_fails
                    FULL "tcp4" "127.0.0.1:8080" (all_on 0) start
                    sa_loopback 2 ltac:(vm_compute; reflexivity))
             [ ("SO_REUSEPORT"%string, SetsockoptInt 3 65535 15 1);
               ("TCP_DEFER_ACCEPT"%string, EnableOption DeferAccept_opt 3) ]
             "TCP_FASTOPEN"%string (EnableOption FastOpen_opt 3)
             [ ("TCP_NODELAY"%string, EnableOption NoDelay_opt 3);
               ("TCP_QUICKACK"%string, EnableOption QuickAck_opt 3) ]
             (Errno 22)).
    + vm_compute. reflexivity.
    + vm_compute. reflexivity.
    + vm_compute. reflexivity.
  - apply (proj2 (@requested_option_failure_is_named darwin reuseport_fails
                    BSD "tcp4" "127.0.0.1:8080" (all_on 0) start
                    sa_loopback 2 ltac:(vm_compute; reflexivity))
             (Errno 22)).
    + reflexivity.
    + vm_compute. reflexivity.
    + vm_compute. reflexivity.
Defined.

Lemma getSockaddr_families_witness :
  @getSockaddr darwin quiet "tcp4" "127.0.0.1:8080" = Ok (sa_loopback, 2)
  /\ @getSockaddr darwin one_iface "tcp6" "[::1%eth9]:443"
     = Ok (SockaddrInet6 443 7 ip6_loopback, 30)
  /\ @getSockaddr darwin no_such_zone "tcp6" "[::1%eth9]:443"
     = Err (External (LibError "route ip+net: no such network interface"))
  /\ @NewListener darwin no_such_zone (@full no_such_zone) "tcp6"
       "[::1%eth9]:443" (all_on 0) start
     = (start,
        Err (External (LibError "route ip+net: no such network interface"))).
Proof.
  split; [|split; [|split]].
  - apply (proj1 (@getSockaddr_families darwin quiet "tcp4" "127.0.0.1:8080"
                    loopback ltac:(reflexivity))).
    right; reflexivity.
  - apply (proj2 (proj2 (proj2 (@getSockaddr_families darwin one_iface "tcp6"
                                  "[::1%eth9]:443" zoned ltac:(reflexivity))
                           ltac:(reflexivity)))
             ltac:(discriminate)).
  - apply (proj2 (proj2 (proj2 (@getSockaddr_families darwin no_such_zone
                                  "tcp6" "[::1%eth9]:443" zoned
                                  ltac:(reflexivity))
                           ltac:(reflexivity)))
             ltac:(discriminate)).
  - apply (proj2 (proj2 (proj2 (@getSockaddr_families darwin no_such_zone
                                  "tcp6" "[::1%eth9]:443" zoned
                                  ltac:(reflexivity))
                           ltac:(reflexivity)))
             ltac:(discriminate)).
Defined.

Lemma getSockaddr_wildcard_without_IPv4_form_witness :
  @getSockaddr darwin empty_host "tcp" ":8080"
  = Ok (SockaddrInet4 8080 [x00; x00; x00; x00], 2)
  /\ @getSockaddr darwin ip6_host "tcp" "[::1]:8080"
     = Ok (SockaddrInet4 8080 [x00; x00; x00; x00], 2).
Proof.
  split.
  - apply (@getSockaddr_wildcard_without_IPv4_form darwin empty_host "tcp"
             ":8080" unspecified); [by left|reflexivity|reflexivity].
  - apply (@getSockaddr_wildcard_without_IPv4_form darwin ip6_host "tcp"
             "[::1]:8080" {| IP := ip6_loopback; Port := 8080; Zone := "" |});
      [by left|reflexivity|reflexivity].
Defined.

(** C3 as stated fails on the pass-through variant: with network "unix" it
    does not fail and a descriptor is created. *)
Lemma Windows_NewListener_accepts_unix :
  (@Windows.NewListener quiet "unix" "/tmp/app.sock" wdefaults start).2
  = Ok {| ln_fd := 3 |}
  /\ fds (@Windows.NewListener quiet "unix" "/tmp/app.sock" wdefaults start).1
     = {[3]} ∪ fds start
  /\ calls (@Windows.NewListener quiet "unix" "/tmp/app.sock" wdefaults
              start).1
     = [NetListen "unix" "/tmp/app.sock"].
Proof. repeat split; vm_compute; reflexivity. Qed.

End Witnesses.

(** ** Further properties of the pipeline *)

Lemma fds_hand_over (X : gset Z) (x y : Z) :
  x ∉ X -> y ∉ {[x]} ∪ X ->
  ({[y]} ∪ ({[x]} ∪ X)) ∖ {[x]} = {[y]} ∪ X /\ (y ∉ X) /\ y <> x.
Proof. set_solver. Qed.

Section Success.
Context {sc : Syscall} {os : OS}.
Import Unix.

Lemma all_ok_cons (h : list call) (c : call) (cs : list call) :
  all_ok h (c :: cs)
  = match sys_err h c with
    | None => all_ok (h ++ [c]) cs
    | Some _ => false
    end.
Proof. reflexivity. Qed.

Lemma all_ok_app (h : list call) (cs ds : list call) :
  all_ok h (cs ++ ds) = all_ok h cs && all_ok (h ++ cs) ds.
Proof.
  revert h; induction cs as [|c cs IH]; intros h; simpl.
  - by rewrite app_nil_r.
  - destruct (sys_err h c); [done|].
    rewrite IH. by rewrite <- app_assoc.
Qed.

(** What a successful call has done to the descriptor table. *)
Lemma NewListener_success_fds (P : Platform) (network addr : string)
  (cfg : Config) (w w' : World) (ln : Listener) :
  platform_keeps_fds P ->
  NewListener P network addr cfg w = (w', Ok ln) ->
  exists sa soType w1 fd,
    getSockaddr network addr = Ok (sa, soType)
    /\ newSocketCloexec P soType SOCK_STREAM IPPROTO_TCP w = (w1, Ok fd)
    /\ (fd ∉ fds w) /\ (ln_fd ln ∉ fds w) /\ ln_fd ln <> fd
    /\ fds w' = {[ln_fd ln]} ∪ fds w.
Proof.
  intros HP. unfold NewListener.
  destruct (getSockaddr network addr) as [[sa soType]|e0]; [|done].
  pose proof (proj1 HP soType SOCK_STREAM IPPROTO_TCP w) as Hmk.
  destruct (newSocketCloexec P soType SOCK_STREAM IPPROTO_TCP w)
    as [w1 [fd|e0]] eqn:Hsock; [|done].
  destruct Hmk as [Hfresh Hw1].
  pose proof (fdSetup_keeps_fds P fd sa addr HP (cfg, w1)) as Hfds.
  destruct (fdSetup P fd sa addr (cfg, w1)) as [[c2 w2] [[]|e2]];
    simpl in Hfds; rewrite Hw1 in Hfds.
  2:{ unfold syscall_Close, release. by case_sys. }
  unfold net_FileListener, bind, acquire, File_Close, Listener_Close,
    release, ret; simpl.
  pose proof (is_fresh (fds w2)) as Hfresh2.
  set (fd2 := fresh (fds w2)) in *. rewrite Hfds in Hfresh2.
  case_sys; simpl; [by case_sys|].
  case_sys; [by case_sys|].
  intros [= <- <-]; simpl.
  destruct (fds_hand_over (fds w) fd fd2 Hfresh Hfresh2)
    as (Heq & Hnew & Hne).
  exists sa, soType, w1, fd. rewrite Hfds. done.
Qed.


(** X2.  Two successful calls, one after the other, give two distinct
    listeners: their descriptors differ and both are open afterwards. *)
Theorem NewListener_twice_distinct (P : Platform)
  (network1 addr1 network2 addr2 : string) (cfg1 cfg2 : Config)
  (w w1 w2 : World) (ln1 ln2 : Listener) :
  platform_keeps_fds P ->
  NewListener P network1 addr1 cfg1 w = (w1, Ok ln1) ->
  NewListener P network2 addr2 cfg2 w1 = (w2, Ok ln2) ->
  ln_fd ln1 <> ln_fd ln2 /\ (ln_fd ln1 ∈ fds w2) /\ (ln_fd ln2 ∈ fds w2).
Proof.
  intros HP Hrun1 Hrun2.
  destruct (NewListener_success_fds P _ _ _ _ _ _ HP Hrun1)
    as (_ & _ & _ & _ & _ & _ & _ & _ & _ & Hfds1).
  destruct (NewListener_success_fds P _ _ _ _ _ _ HP Hrun2)
    as (_ & _ & _ & _ & _ & _ & _ & Hnew & _ & Hfds2).
  rewrite Hfds2. rewrite Hfds1 in Hnew. set_solver.
Qed.

End Success.

Section Runs.
Context {sc : Syscall} {os : OS}.
Import Unix.

Lemma listener_calls_assoc (h : list call) (s : call) (cs : list call)
  (c d : call) :
  ((h ++ [s]) ++ cs) ++ [c] = h ++ s :: cs ++ [c]
  /\ (((h ++ [s]) ++ cs) ++ [c]) ++ [d] = h ++ s :: cs ++ [c; d].
Proof. split; rewrite <- !app_assoc; simpl; by rewrite <- ?app_assoc. Qed.

(** How [NewListener] goes on once the socket exists and the setup is
    through: hand the descriptor to a listener, then close the file. *)
Lemma NewListener_after_setup (v : variant) (network addr : string)
  (cfg : Config) (w : World) (sa : Sockaddr) (soType : Z) :
  getSockaddr network addr = Ok (sa, soType) ->
  let fd := fresh (fds w) in
  let s := Socket soType SOCK_STREAM IPPROTO_TCP true in
  let w2 := {| fds := {[fd]} ∪ fds w;
               calls := (calls w ++ [s]) ++ setup_calls v cfg fd sa |} in
  sys_err (calls w) s = None ->
  all_ok (calls w ++ [s]) (setup_calls v cfg fd sa) = true ->
  NewListener (platform v) network addr cfg w
  = match sys_err (calls w2) (FileListener fd) with
    | Some x =>
        ({| fds := fds w; calls := calls w2 ++ [FileListener fd; FileClose fd] |},
         Err (External x))
    | None =>
        let fd2 := fresh (fds w2) in
        match sys_err (calls w2 ++ [FileListener fd]) (FileClose fd) with
        | Some x =>
            ({| fds := fds w;
                calls := calls w2 ++ [FileListener fd; FileClose fd;
                                      ListenerClose fd2] |},
             Err (External x))
        | None =>
            ({| fds := {[fd2]} ∪ fds w;
                calls := calls w2 ++ [FileListener fd; FileClose fd] |},
             Ok {| ln_fd := fd2 |})
        end
    end.
Proof.
  intros Hsa fd s w2 Hsock Hsetup.
  unfold NewListener. rewrite Hsa.
  assert (Hmk : newSocketCloexec (platform v)
                = SocketFactory.newSocketCloexec) by (by destruct v).
  rewrite Hmk. unfold SocketFactory.newSocketCloexec, wrap, acquire.
  fold s. rewrite Hsock. fold fd.
  rewrite fdSetup_exec, exec_ok; rewrite setup_steps_calls; [|exact Hsetup].
  subst w2. unfold with_calls; simpl.
  pose proof (is_fresh (fds w)) as Hfd. fold fd in Hfd.
  pose proof (is_fresh ({[fd]} ∪ fds w)) as Hfd2.
  set (fd2 := fresh ({[fd]} ∪ fds w)) in *.
  destruct (fds_hand_over (fds w) fd fd2 Hfd Hfd2) as (Hover & _ & Hne).
  unfold net_FileListener, bind, acquire, File_Close, Listener_Close,
    release, ret; simpl. fold fd2.
  case_sys; simpl.
  - rewrite fds_open_close by exact Hfd.
    rewrite <- !app_assoc. by case_sys.
  - case_sys; simpl.
    + rewrite fds_open_close2 by done.
      rewrite <- !app_assoc. by case_sys.
    + rewrite Hover. by rewrite <- !app_assoc.
Qed.

(** X3.  When every call of the sequence socket, setup, hand-over, file
    close succeeds, [NewListener] succeeds, having made exactly these calls,
    and returns a listener on a descriptor that was not open before.
    Conversely a call that succeeded made exactly these calls and every one
    of them succeeded. *)
Theorem NewListener_success_calls (v : variant) (network addr : string)
  (cfg : Config) (w : World) (sa : Sockaddr) (soType : Z) :
  getSockaddr network addr = Ok (sa, soType) ->
  let fd := fresh (fds w) in
  let whole := listener_calls v cfg fd sa soType in
  (all_ok (calls w) whole = true ->
   exists ln,
     NewListener (platform v) network addr cfg w
     = ({| fds := {[ln_fd ln]} ∪ fds w; calls := calls w ++ whole |}, Ok ln))
  /\ (forall w' ln,
        NewListener (platform v) network addr cfg w = (w', Ok ln) ->
        all_ok (calls w) whole = true /\ calls w' = calls w ++ whole).
Proof.
  intros Hsa fd whole.
  set (s := Socket soType SOCK_STREAM IPPROTO_TCP true).
  set (h := (calls w ++ [s]) ++ setup_calls v cfg fd sa).
  assert (Hwhole : all_ok (calls w) whole
                   = match sys_err (calls w) s with
                     | Some _ => false
                     | None =>
                         all_ok (calls w ++ [s]) (setup_calls v cfg fd sa)
                         && match sys_err h (FileListener fd) with
                            | Some _ => false
                            | None =>
                                match sys_err (h ++ [FileListener fd])
                                        (FileClose fd) with
                                | Some _ => false
                                | None => true
                                end
                            end
                     end).
  { unfold whole, listener_calls. fold s. rewrite all_ok_cons.
    destruct (sys_err (calls w) s); [done|]. by rewrite all_ok_app. }
  assert (Hcalls : h ++ [FileListener fd; FileClose fd] = calls w ++ whole).
  { unfold h, whole, listener_calls. fold s. by rewrite <- !app_assoc. }
  assert (Hmk : newSocketCloexec (platform v)
                = SocketFactory.newSocketCloexec) by (by destruct v).
  destruct (sys_err (calls w) s) as [x|] eqn:Hsock.
  { split; [by rewrite Hwhole|].
    intros w' ln. unfold NewListener. rewrite Hsa, Hmk.
    unfold SocketFactory.newSocketCloexec, wrap, acquire.
    fold s. by rewrite Hsock. }
  destruct (all_ok (calls w ++ [s]) (setup_calls v cfg fd sa)) eqn:Hsetup.
  - rewrite (NewListener_after_setup v network addr cfg w sa soType Hsa
               Hsock Hsetup).
    fold fd s. simpl. fold h. simpl in Hwhole.
    destruct (sys_err h (FileListener fd)); [by rewrite Hwhole|].
    destruct (sys_err (h ++ [FileListener fd]) (FileClose fd));
      [by rewrite Hwhole|].
    rewrite Hcalls. split.
    + intros _. by eexists {| ln_fd := _ |}.
    + by intros w' ln [= <- _].
  - split; [by rewrite Hwhole|].
    intros w' ln. unfold NewListener. rewrite Hsa, Hmk.
    unfold SocketFactory.newSocketCloexec, wrap, acquire.
    fold s. rewrite Hsock. fold fd. rewrite fdSetup_exec.
    destruct (exec_cases (setup_steps v cfg fd sa addr)
                {| fds := {[fd]} ∪ fds w; calls := calls w ++ [s] |})
      as [[Hok _]|(pre & t & post & x & _ & _ & _ & ->)].
    + rewrite setup_steps_calls in Hok.
      change (all_ok (calls w ++ [s]) (setup_calls v cfg fd sa) = true)
        in Hok.
      congruence.
    + unfold syscall_Close, release. by case_sys.
Qed.

End Runs.

Section Paths.
Context {sc : Syscall} {os : OS}.
Import Unix.

(** X4.  Once the socket is set up: when [net.FileListener] fails, the file
    is closed and the error comes back as it is; when it succeeds and closing
    the file fails, the new listener is closed and the error of the file's
    close comes back as it is.  Either way the descriptor table is as it was
    before the call, whatever the closing calls report. *)
Theorem NewListener_hand_over_failure (v : variant) (network addr : string)
  (cfg : Config) (w : World) (sa : Sockaddr) (soType : Z) (x : ext_error) :
  getSockaddr network addr = Ok (sa, soType) ->
  let fd := fresh (fds w) in
  let done := Socket soType SOCK_STREAM IPPROTO_TCP true
              :: setup_calls v cfg fd sa in
  all_ok (calls w) done = true ->
  (sys_err (calls w ++ done) (FileListener fd) = Some x ->
   NewListener (platform v) network addr cfg w
   = ({| fds := fds w;
         calls := calls w ++ done ++ [FileListener fd; FileClose fd] |},
      Err (External x)))
  /\ (sys_err (calls w ++ done) (FileListener fd) = None ->
      sys_err (calls w ++ done ++ [FileListener fd]) (FileClose fd) = Some x ->
      NewListener (platform v) network addr cfg w
      = ({| fds := fds w;
            calls := calls w ++ done
                     ++ [ FileListener fd; FileClose fd;
                          ListenerClose (fresh ({[fd]} ∪ fds w)) ] |},
         Err (External x))).
Proof.
  intros Hsa fd done Hall.
  set (s := Socket soType SOCK_STREAM IPPROTO_TCP true) in *.
  unfold done in Hall. rewrite all_ok_cons in Hall.
  destruct (sys_err (calls w) s) eqn:Hsock; [discriminate|].
  rewrite (NewListener_after_setup v network addr cfg w sa soType Hsa
             Hsock Hall).
  fold fd s. cbn [calls fds].
  assert (Hh : (calls w ++ [s]) ++ setup_calls v cfg fd sa = calls w ++ done)
    by (unfold done; by rewrite <- app_assoc).
  rewrite Hh. split.
  - intros ->. by rewrite <- !app_assoc.
  - intros -> Hclose.
    rewrite <- !app_assoc. by rewrite Hclose.
Qed.

(** X5.  When one of the two unconditional options cannot be set,
    [NewListener] makes no further call but the closing of the socket, and
    returns the kernel's error wrapped with what failed: enabling
    SO_REUSEADDR, or disabling Nagle's algorithm. *)
Theorem NewListener_mandatory_option_failure (v : variant)
  (network addr : string) (cfg : Config) (w : World) (sa : Sockaddr)
  (soType : Z) (x : ext_error) :
  getSockaddr network addr = Ok (sa, soType) ->
  let fd := fresh (fds w) in
  let s := Socket soType SOCK_STREAM IPPROTO_TCP true in
  let reuseaddr := SetsockoptInt fd SOL_SOCKET SO_REUSEADDR 1 in
  let nodelay := SetsockoptInt fd IPPROTO_TCP TCP_NODELAY 1 in
  (all_ok (calls w) [s] = true ->
   sys_err (calls w ++ [s]) reuseaddr = Some x ->
   NewListener (platform v) network addr cfg w
   = ({| fds := fds w; calls := calls w ++ [s] ++ [reuseaddr; Close fd] |},
      Err (fmt_Errorf "cannot enable SO_REUSEADDR: %s" [] (External x))))
  /\ (all_ok (calls w) [s; reuseaddr] = true ->
      sys_err (calls w ++ [s; reuseaddr]) nodelay = Some x ->
      NewListener (platform v) network addr cfg w
      = ({| fds := fds w;
            calls := calls w ++ [s; reuseaddr] ++ [nodelay; Close fd] |},
         Err (fmt_Errorf "cannot disable Nagle's algorithm: %s" []
                (External x)))).
Proof.
  intros Hsa fd s reuseaddr nodelay. split; intros Hall Hfail.
  - apply (NewListener_fails_at v network addr cfg w sa soType []
             {| step_call := reuseaddr;
                step_wrap := fmt_Errorf "cannot enable SO_REUSEADDR: %s" [] |}
             ({| step_call := nodelay;
                 step_wrap :=
                   fmt_Errorf "cannot disable Nagle's algorithm: %s" [] |}
              :: requested_steps v cfg fd ++ [bind_step fd sa addr]
                 ++ backlog_query_steps v cfg ++ [listen_step v cfg fd addr])
             x Hsa); done.
  - apply (NewListener_fails_at v network addr cfg w sa soType
             [ {| step_call := reuseaddr;
                  step_wrap :=
                    fmt_Errorf "cannot enable SO_REUSEADDR: %s" [] |} ]
             {| step_call := nodelay;
                step_wrap :=
                  fmt_Errorf "cannot disable Nagle's algorithm: %s" [] |}
             (requested_steps v cfg fd ++ [bind_step fd sa addr]
              ++ backlog_query_steps v cfg ++ [listen_step v cfg fd addr])
             x Hsa); done.
Qed.

(** X6.  When bind fails, as it does for an address already in use,
    [NewListener] never listens: it closes the socket and returns the
    kernel's error wrapped with the address it was asked to bind. *)
Theorem NewListener_bind_failure (v : variant) (network addr : string)
  (cfg : Config) (w : World) (sa : Sockaddr) (soType : Z) (x : ext_error) :
  getSockaddr network addr = Ok (sa, soType) ->
  let fd := fresh (fds w) in
  let before := [ Socket soType SOCK_STREAM IPPROTO_TCP true;
                  SetsockoptInt fd SOL_SOCKET SO_REUSEADDR 1;
                  SetsockoptInt fd IPPROTO_TCP TCP_NODELAY 1 ]
                ++ map snd (requested_options v cfg fd) in
  all_ok (calls w) before = true ->
  sys_err (calls w ++ before) (Bind fd sa) = Some x ->
  NewListener (platform v) network addr cfg w
  = ({| fds := fds w; calls := calls w ++ before ++ [Bind fd sa; Close fd] |},
     Err (fmt_Errorf "cannot bind to %q: %s" [addr] (External x))).
Proof.
  intros Hsa fd before Hall Hfail.
  pose proof (NewListener_fails_at v network addr cfg w sa soType
                (mandatory_steps fd ++ requested_steps v cfg fd)
                (bind_step fd sa addr)
                (backlog_query_steps v cfg ++ [listen_step v cfg fd addr])
                x Hsa) as Hgen.
  cbv zeta in Hgen. fold fd in Hgen.
  assert (Hbefore : Socket soType SOCK_STREAM IPPROTO_TCP true
                    :: map step_call
                         (mandatory_steps fd ++ requested_steps v cfg fd)
                    = before).
  { unfold before, requested_steps. rewrite map_app, map_map. reflexivity. }
  rewrite Hbefore in Hgen. apply Hgen; [|done|done].
  unfold setup_steps. by rewrite <- !app_assoc.
Qed.

(** X7.  When listen fails, [NewListener] closes the bound socket and
    returns the kernel's error wrapped with the address. *)
Theorem NewListener_listen_failure (v : variant) (network addr : string)
  (cfg : Config) (w : World) (sa : Sockaddr) (soType : Z) (x : ext_error) :
  getSockaddr network addr = Ok (sa, soType) ->
  let fd := fresh (fds w) in
  let before := [ Socket soType SOCK_STREAM IPPROTO_TCP true;
                  SetsockoptInt fd SOL_SOCKET SO_REUSEADDR 1;
                  SetsockoptInt fd IPPROTO_TCP TCP_NODELAY 1 ]
                ++ map snd (requested_options v cfg fd)
                ++ [ Bind fd sa ]
                ++ map step_call (backlog_query_steps v cfg) in
  let listen := Listen fd (effective_backlog v cfg) in
  all_ok (calls w) before = true ->
  sys_err (calls w ++ before) listen = Some x ->
  NewListener (platform v) network addr cfg w
  = ({| fds := fds w; calls := calls w ++ before ++ [listen; Close fd] |},
     Err (fmt_Errorf "cannot listen on %q: %s" [addr] (External x))).
Proof.
  intros Hsa fd before listen Hall Hfail.
  pose proof (NewListener_fails_at v network addr cfg w sa soType
                (mandatory_steps fd ++ requested_steps v cfg fd
                 ++ [bind_step fd sa addr] ++ backlog_query_steps v cfg)
                (listen_step v cfg fd addr) [] x Hsa) as Hgen.
  cbv zeta in Hgen. fold fd in Hgen.
  assert (Hbefore : Socket soType SOCK_STREAM IPPROTO_TCP true
                    :: map step_call
                         (mandatory_steps fd ++ requested_steps v cfg fd
                          ++ [bind_step fd sa addr]
                          ++ backlog_query_steps v cfg)
                    = before).
  { unfold before, requested_steps. rewrite !map_app, map_map.
    reflexivity. }
  rewrite Hbefore in Hgen. apply Hgen; [|done|done].
  unfold setup_steps. by rewrite <- !app_assoc.
Qed.

(** X8.  When the address does not resolve, [NewListener] returns the
    resolver's error as it is and does nothing else: no call is made and no
    descriptor is created, whatever the platform files. *)
Theorem NewListener_resolution_failure (P : Platform)
  (network addr : string) (cfg : Config) (w : World) (x : ext_error) :
  network = "tcp"%string \/ network = "tcp4"%string
  \/ network = "tcp6"%string ->
  net_ResolveTCPAddr network addr = Fault x ->
  getSockaddr network addr = Err (External x)
  /\ NewListener P network addr cfg w = (w, Err (External x)).
Proof.
  intros Hnet Hres.
  assert (Hsa : getSockaddr network addr = Err (External x)).
  { unfold getSockaddr. rewrite Hres.
    by destruct Hnet as [-> | [-> | ->]]. }
  split; [done|]. unfold NewListener. by rewrite Hsa.
Qed.

End Paths.

Section Bytes.
Context {sc : Syscall} {os : OS}.
Import Unix.

Lemma copy_into_exact (n : nat) (src : list byte) :
  length src = n -> copy_into n src = src.
Proof.
  intros <-. unfold copy_into. rewrite firstn_all, Nat.sub_diag; simpl.
  by rewrite app_nil_r.
Qed.

(** X9.  For tcp and tcp4, a resolved address in four-byte form, or in the
    sixteen-byte IPv4-mapped form, gives a socket address with exactly those
    four bytes and the resolved port. *)
Theorem getSockaddr_IPv4_bytes (network addr : string) (a : TCPAddr)
  (b0 b1 b2 b3 : byte) :
  network = "tcp"%string \/ network = "tcp4"%string ->
  net_ResolveTCPAddr network addr = Reply a ->
  IP a = [b0; b1; b2; b3] \/ IP a = v4InV6Prefix ++ [b0; b1; b2; b3] ->
  getSockaddr network addr
  = Ok (SockaddrInet4 (Port a) [b0; b1; b2; b3], AF_INET).
Proof.
  intros Hnet Hres Hip. unfold getSockaddr. rewrite Hres.
  by destruct Hnet as [-> | ->], Hip as [-> | ->].
Qed.

(** X10.  For tcp6, the address bytes of the result are the resolved IP when
    it has sixteen bytes, its IPv4-mapped form when it has four, and sixteen
    zero bytes (the unspecified address) for any other length, the empty IP
    included. *)
Theorem getSockaddr_IPv6_bytes (addr : string) (a : TCPAddr) (port zone t : Z)
  (bytes : list byte) :
  net_ResolveTCPAddr "tcp6" addr = Reply a ->
  getSockaddr "tcp6" addr = Ok (SockaddrInet6 port zone bytes, t) ->
  port = Port a
  /\ (length (IP a) = 16%nat -> bytes = IP a)
  /\ (length (IP a) = 4%nat -> bytes = v4InV6Prefix ++ IP a)
  /\ (length (IP a) <> 4%nat -> length (IP a) <> 16%nat ->
      bytes = replicate 16 x00).
Proof.
  intros Hres. unfold getSockaddr. rewrite Hres. simpl.
  assert (Hbytes : (length (IP a) = 16%nat ->
                    copy_into 16 (To16 (IP a)) = IP a)
                   /\ (length (IP a) = 4%nat ->
                       copy_into 16 (To16 (IP a)) = v4InV6Prefix ++ IP a)
                   /\ (length (IP a) <> 4%nat -> length (IP a) <> 16%nat ->
                       copy_into 16 (To16 (IP a)) = replicate 16 x00)).
  { unfold To16. split; [|split].
    - intros Hlen. rewrite Hlen. simpl. by apply copy_into_exact.
    - intros Hlen. rewrite Hlen. simpl. apply copy_into_exact.
      simpl. by rewrite Hlen.
    - intros H4 H16.
      apply Nat.eqb_neq in H4, H16. by rewrite H4, H16. }
  destruct (negb _).
  - destruct (net_InterfaceByName _); [|done].
    by intros [= <- _ <- _].
  - by intros [= <- _ <- _].
Qed.

(** X11.  [getSockaddr] answers with the unsupported-network error exactly
    when the network is none of tcp, tcp4 and tcp6. *)
Theorem getSockaddr_unsupported_iff (network addr : string) :
  getSockaddr network addr
  = Err (errors_New "only tcp4 and tcp6 network is supported")
  <-> (network <> "tcp"%string /\ network <> "tcp4"%string
       /\ network <> "tcp6"%string).
Proof.
  split.
  - unfold getSockaddr.
    destruct (String.eqb_spec network "tcp") as [->|H1]; simpl.
    { by destruct (net_ResolveTCPAddr _ _). }
    destruct (String.eqb_spec network "tcp4") as [->|H2]; simpl.
    { by destruct (net_ResolveTCPAddr _ _). }
    destruct (String.eqb_spec network "tcp6") as [->|H3]; simpl; [|done].
    destruct (net_ResolveTCPAddr _ _) as [a|x]; [|done].
    destruct (negb _); [|done].
    by destruct (net_InterfaceByName _).
  - intros (H1 & H2 & H3). by apply getSockaddr_unsupported.
Qed.

End Bytes.

Section Backlog.
Context {sc : Syscall} {os : OS}.
Import Unix.

Lemma sim_ret {A} (c1 c2 : Config) (a : A) : sim c1 c2 (ret a) (ret a).
Proof. done. Qed.

Lemma sim_lift {A} (c1 c2 : Config) (m : M World A) :
  sim c1 c2 (lift m) (lift m).
Proof. intros w. unfold lift; simpl. by destruct (m w). Qed.

Lemma sim_wrap {A} (c1 c2 : Config) (g : error -> error)
  (m1 m2 : M (Config * World) A) :
  sim c1 c2 m1 m2 -> sim c1 c2 (wrap g m1) (wrap g m2).
Proof.
  intros Hm w. unfold wrap. specialize (Hm w).
  destruct (m1 (c1, w)) as [s1 [a1|e1]], (m2 (c2, w)) as [s2 [a2|e2]];
    simpl in *; destruct Hm as (? & ? & ? & Hr); try done.
  by injection Hr as ->.
Qed.

Lemma sim_bind {A B} (c1 c2 : Config) (m1 m2 : M (Config * World) A)
  (k1 k2 : A -> M (Config * World) B) :
  sim c1 c2 m1 m2 -> (forall a, sim c1 c2 (k1 a) (k2 a)) ->
  sim c1 c2 (bind m1 k1) (bind m2 k2).
Proof.
  intros Hm Hk w. unfold bind. specialize (Hm w).
  destruct (m1 (c1, w)) as [[d1 w1] [a1|e1]],
    (m2 (c2, w)) as [[d2 w2] [a2|e2]];
    simpl in *; destruct Hm as (-> & -> & -> & Hr).
  - injection Hr as ->. apply Hk.
  - discriminate.
  - discriminate.
  - by injection Hr as ->.
Qed.

Lemma sim_when (c1 c2 : Config) (b : bool) (m1 m2 : M (Config * World) unit) :
  sim c1 c2 m1 m2 -> sim c1 c2 (when b m1) (when b m2).
Proof. destruct b; [done|]. intros _. apply sim_ret. Qed.

Lemma sim_field {A B} (c1 c2 : Config) (f : Config -> A)
  (k1 k2 : A -> M (Config * World) B) :
  sim c1 c2 (k1 (f c1)) (k2 (f c2)) ->
  sim c1 c2 (bind (cfg_field f) k1) (bind (cfg_field f) k2).
Proof. intros Hk w. apply Hk. Qed.

(** The setup looks at [Backlog] only to see whether it is positive. *)
Lemma fdSetup_nonpositive_Backlog (P : Platform) (fd : Z) (sa : Sockaddr)
  (addr : string) (cfg : Config) (b : Z) :
  b <= 0 ->
  sim (set_Backlog b cfg) (set_Backlog 0 cfg)
    (fdSetup P fd sa addr) (fdSetup P fd sa addr).
Proof.
  intros Hb. apply Z.leb_le in Hb. unfold fdSetup.
  do 2 (apply sim_bind; [apply sim_wrap, sim_lift|intros _]).
  apply sim_field; simpl.
  apply sim_bind; [apply sim_when, sim_wrap, sim_lift|intros _].
  do 4 (apply sim_field; simpl;
        apply sim_bind; [apply sim_when, sim_lift|intros _]).
  apply sim_bind; [apply sim_wrap, sim_lift|intros _].
  apply sim_field; simpl. rewrite Hb.
  apply sim_bind; [apply sim_wrap, sim_lift|intros backlog].
  apply sim_wrap, sim_lift.
Qed.

(** X12.  Any [Backlog] that is zero or negative means the same as zero:
    whatever the platform files, [NewListener] makes the same calls and
    returns the same result. *)
Theorem NewListener_nonpositive_Backlog (P : Platform)
  (network addr : string) (cfg : Config) (b : Z) (w : World) :
  b <= 0 ->
  NewListener P network addr (set_Backlog b cfg) w
  = NewListener P network addr (set_Backlog 0 cfg) w.
Proof.
  intros Hb. unfold NewListener.
  destruct (getSockaddr network addr) as [[sa soType]|e0]; [|done].
  destruct (newSocketCloexec P soType SOCK_STREAM IPPROTO_TCP w)
    as [w1 [fd|e0]]; [|done].
  destruct (fdSetup_nonpositive_Backlog P fd sa addr cfg b Hb w1)
    as (_ & _ & Hw & Hr).
  destruct (fdSetup P fd sa addr (set_Backlog b cfg, w1)) as [[c2 w2] r2].
  destruct (fdSetup P fd sa addr (set_Backlog 0 cfg, w1)) as [[c3 w3] r3].
  simpl in Hw, Hr. by subst.
Qed.

(** X13.  Every call [fdSetup] makes is about the descriptor it was given:
    a socket option on it, the bind to the given address, a listen, or the
    backlog query.  It never closes the descriptor and never opens one. *)
Theorem fdSetup_calls_own_descriptor (v : variant) (cfg : Config) (fd : Z)
  (sa : Sockaddr) (addr : string) (w : World) (done : list call) (c : call) :
  calls (fdSetup (platform v) fd sa addr (cfg, w)).1.2 = calls w ++ done ->
  c ∈ done ->
  (exists level opt value, c = SetsockoptInt fd level opt value)
  \/ (exists o, c = EnableOption o fd)
  \/ c = Bind fd sa
  \/ (exists backlog, c = Listen fd backlog)
  \/ c = QueryBacklog.
Proof.
  rewrite fdSetup_exec.
  destruct (exec_prefix (setup_steps v cfg fd sa addr) w)
    as (done0 & Hw & [k Hk] & _ & _).
  rewrite setup_steps_calls in Hk.
  destruct (exec _ w) as [w' r]; simpl in *. subst w'. simpl.
  intros Hdone Hin. apply app_inv_head in Hdone. subst done0.
  assert (Hc : c ∈ setup_calls v cfg fd sa)
    by (rewrite Hk; apply elem_of_app; by left).
  clear -Hc. revert Hc.
  unfold setup_calls, requested_options, tunable_request,
    backlog_query_steps.
  destruct v, (ReusePort cfg), (DeferAccept cfg), (FastOpen cfg),
    (NoDelay cfg), (QuickACK cfg), (0 <? Backlog cfg); simpl;
    intros Hc;
    repeat (apply elem_of_cons in Hc as [-> | Hc]; [by eauto 10|]);
    by apply elem_of_nil in Hc.
Qed.

Lemma sim_lift_ext {A} (c1 c2 : Config) (m1 m2 : M World A) :
  (forall w, m1 w = m2 w) -> sim c1 c2 (lift m1) (lift m2).
Proof.
  intros Hm w. unfold lift; simpl. rewrite Hm. by destruct (m2 w).
Qed.

Lemma sim_when_requested (c1 c2 : Config) (b : bool)
  (m1 m2 : M (Config * World) unit) :
  (b = true -> sim c1 c2 m1 m2) -> sim c1 c2 (when b m1) (when b m2).
Proof. destruct b; [auto|]. intros _. apply sim_ret. Qed.

(** X14.  [fdSetup] never invokes what was not asked for: two sets of
    platform files that agree on the operations the [Config] requests (the
    port-sharing constant when [ReusePort] is set, each tunable whose flag is
    set, the backlog query when [Backlog] is not positive) give the same
    run, however much they differ elsewhere. *)
Theorem fdSetup_unrequested_never_invoked (P P' : Platform) (cfg : Config)
  (fd : Z) (sa : Sockaddr) (addr : string) (w : World) :
  (ReusePort cfg = true -> soReusePort P = soReusePort P') ->
  (DeferAccept cfg = true ->
   forall w0, enableDeferAccept P fd w0 = enableDeferAccept P' fd w0) ->
  (FastOpen cfg = true ->
   forall w0, enableFastOpen P fd w0 = enableFastOpen P' fd w0) ->
  (NoDelay cfg = true ->
   forall w0, enableNoDelay P fd w0 = enableNoDelay P' fd w0) ->
  (QuickACK cfg = true ->
   forall w0, enableQuickAck P fd w0 = enableQuickAck P' fd w0) ->
  (Backlog cfg <= 0 -> forall w0, soMaxConn P w0 = soMaxConn P' w0) ->
  fdSetup P fd sa addr (cfg, w) = fdSetup P' fd sa addr (cfg, w).
Proof.
  intros Hrp Hda Hfo Hnd Hqa Hmax.
  assert (Hsim : sim cfg cfg (fdSetup P fd sa addr) (fdSetup P' fd sa addr)).
  { unfold fdSetup.
    do 2 (apply sim_bind; [apply sim_wrap, sim_lift|intros _]).
    apply sim_field.
    apply sim_bind.
    { apply sim_when_requested. intros H. rewrite (Hrp H).
      apply sim_wrap, sim_lift. }
    intros _. apply sim_field.
    apply sim_bind; [apply sim_when_requested; intros H;
                     apply sim_lift_ext, (Hda H)|intros _].
    apply sim_field.
    apply sim_bind; [apply sim_when_requested; intros H;
                     apply sim_lift_ext, (Hfo H)|intros _].
    apply sim_field.
    apply sim_bind; [apply sim_when_requested; intros H;
                     apply sim_lift_ext, (Hnd H)|intros _].
    apply sim_field.
    apply sim_bind; [apply sim_when_requested; intros H;
                     apply sim_lift_ext, (Hqa H)|intros _].
    apply sim_bind; [apply sim_wrap, sim_lift|intros _].
    apply sim_field.
    apply sim_bind; [|intros backlog; apply sim_wrap, sim_lift].
    destruct (Z.leb_spec (Backlog cfg) 0) as [Hle|Hgt].
    - apply sim_wrap, sim_lift_ext, (Hmax Hle).
    - apply sim_ret. }
  destruct (Hsim w) as (H1 & H2 & H3 & H4).
  destruct (fdSetup P fd sa addr (cfg, w)) as [[c1 w1] r1].
  destruct (fdSetup P' fd sa addr (cfg, w)) as [[c2 w2] r2].
  simpl in *. by subst.
Qed.

End Backlog.

(** ** The further properties at concrete inputs *)

Section MoreWitnesses.
Import Unix Sample.


Lemma NewListener_twice_distinct_witness :
  4 <> 6
  /\ (4 ∈ fds (@NewListener darwin quiet (@full quiet) "tcp6" "[::1]:9090"
                 defaults
                 (@NewListener darwin quiet (@full quiet) "tcp4"
                    "127.0.0.1:8080" (all_on 17) start).1).1)
  /\ (6 ∈ fds (@NewListener darwin quiet (@full quiet) "tcp6" "[::1]:9090"
                 defaults
                 (@NewListener darwin quiet (@full quiet) "tcp4"
                    "127.0.0.1:8080" (all_on 17) start).1).1).
Proof.
  pose (r1 := @NewListener darwin quiet (@full quiet) "tcp4"
                "127.0.0.1:8080" (all_on 17) start).
  pose (r2 := @NewListener darwin quiet (@full quiet) "tcp6" "[::1]:9090"
                defaults r1.1).
  assert (Hrun1 : r1 = (r1.1, Ok {| ln_fd := 4 |}))
    by (vm_compute; reflexivity).
  assert (Hrun2 : r2 = (r2.1, Ok {| ln_fd := 6 |}))
    by (vm_compute; reflexivity).
  exact (@NewListener_twice_distinct darwin quiet (@full quiet)
           "tcp4" "127.0.0.1:8080" "tcp6" "[::1]:9090" (all_on 17) defaults
           start r1.1 r2.1 {| ln_fd := 4 |} {| ln_fd := 6 |}
           full_keeps_fds Hrun1 Hrun2).
Defined.

Lemma NewListener_success_calls_witness :
  exists ln,
    @NewListener darwin quiet (@full quiet) "tcp4" "127.0.0.1:8080"
      (all_on 17) start
    = ({| fds := {[ln_fd ln]} ∪ fds start;
          calls := [ Socket 2 1 6 true;
                     SetsockoptInt 3 65535 4 1; SetsockoptInt 3 6 1 1;
                     SetsockoptInt 3 65535 15 1;
                     EnableOption DeferAccept_opt 3;
                     EnableOption FastOpen_opt 3;
                     EnableOption NoDelay_opt 3;
                     EnableOption QuickAck_opt 3;
                     Bind 3 sa_loopback; Listen 3 17;
                     FileListener 3; FileClose 3 ] |},
       Ok ln).
Proof.
  apply (proj1 (@NewListener_success_calls darwin quiet FULL "tcp4"
                  "127.0.0.1:8080" (all_on 17) start sa_loopback 2
                  ltac:(vm_compute; reflexivity))).
  vm_compute. reflexivity.
Defined.

Lemma NewListener_hand_over_failure_witness :
  @NewListener darwin filelistener_fails (@bsd darwin filelistener_fails)
    "tcp4" "127.0.0.1:8080" defaults start
  = ({| fds := fds start;
        calls := [ Socket 2 1 6 true;
                   SetsockoptInt 3 65535 4 1; SetsockoptInt 3 6 1 1;
                   Bind 3 sa_loopback; Listen 3 128;
                   FileListener 3; FileClose 3 ] |},
     Err (External (Errno 22)))
  /\ @NewListener darwin fileclose_fails (@bsd darwin fileclose_fails)
       "tcp4" "127.0.0.1:8080" defaults start
     = ({| fds := fds start;
           calls := [ Socket 2 1 6 true;
                      SetsockoptInt 3 65535 4 1; SetsockoptInt 3 6 1 1;
                      Bind 3 sa_loopback; Listen 3 128;
                      FileListener 3; FileClose 3; ListenerClose 4 ] |},
        Err (External (Errno 22))).
Proof.
  split.
  - apply (proj1 (@NewListener_hand_over_failure darwin filelistener_fails
                    BSD "tcp4" "127.0.0.1:8080" defaults start sa_loopback 2
                    (Errno 22) ltac:(vm_compute; reflexivity)
                    ltac:(vm_compute; reflexivity))).
    vm_compute. reflexivity.
  - apply (proj2 (@NewListener_hand_over_failure darwin fileclose_fails
                    BSD "tcp4" "127.0.0.1:8080" defaults start sa_loopback 2
                    (Errno 22) ltac:(vm_compute; reflexivity)
                    ltac:(vm_compute; reflexivity)));
      vm_compute; reflexivity.
Defined.

Lemma NewListener_mandatory_option_failure_witness :
  @NewListener darwin reuseaddr_fails (@bsd darwin reuseaddr_fails)
    "tcp4" "127.0.0.1:8080" defaults start
  = ({| fds := fds start;
        calls := [ Socket 2 1 6 true; SetsockoptInt 3 65535 4 1; Close 3 ] |},
     Err (fmt_Errorf "cannot enable SO_REUSEADDR: %s" []
            (External (Errno 22))))
  /\ @NewListener darwin nodelay_fails (@bsd darwin nodelay_fails)
       "tcp4" "127.0.0.1:8080" defaults start
     = ({| fds := fds start;
           calls := [ Socket 2 1 6 true; SetsockoptInt 3 65535 4 1;
                      SetsockoptInt 3 6 1 1; Close 3 ] |},
        Err (fmt_Errorf "cannot disable Nagle's algorithm: %s" []
               (External (Errno 22)))).
Proof.
  split.
  - apply (proj1 (@NewListener_mandatory_option_failure darwin
                    reuseaddr_fails BSD "tcp4" "127.0.0.1:8080" defaults
                    start sa_loopback 2 (Errno 22)
                    ltac:(vm_compute; reflexivity)));
      vm_compute; reflexivity.
  - apply (proj2 (@NewListener_mandatory_option_failure darwin
                    nodelay_fails BSD "tcp4" "127.0.0.1:8080" defaults
                    start sa_loopback 2 (Errno 22)
                    ltac:(vm_compute; reflexivity)));
      vm_compute; reflexivity.
Defined.

Lemma NewListener_bind_failure_witness :
  @NewListener darwin bind_fails (@full bind_fails) "tcp4" "127.0.0.1:8080"
    (all_on 0) start
  = ({| fds := fds start;
        calls := [ Socket 2 1 6 true;
                   SetsockoptInt 3 65535 4 1; SetsockoptInt 3 6 1 1;
                   SetsockoptInt 3 65535 15 1;
                   EnableOption DeferAccept_opt 3;
                   EnableOption FastOpen_opt 3;
                   EnableOption NoDelay_opt 3;
                   EnableOption QuickAck_opt 3;
                   Bind 3 sa_loopback; Close 3 ] |},
     Err (fmt_Errorf "cannot bind to %q: %s" ["127.0.0.1:8080"%string]
            (External (Errno 22)))).
Proof.
  apply (@NewListener_bind_failure darwin bind_fails FULL "tcp4"
           "127.0.0.1:8080" (all_on 0) start sa_loopback 2 (Errno 22));
    vm_compute; reflexivity.
Defined.

Lemma NewListener_listen_failure_witness :
  @NewListener darwin listen_fails (@full listen_fails) "tcp4"
    "127.0.0.1:8080" (all_on 0) start
  = ({| fds := fds start;
        calls := [ Socket 2 1 6 true;
                   SetsockoptInt 3 65535 4 1; SetsockoptInt 3 6 1 1;
                   SetsockoptInt 3 65535 15 1;
                   EnableOption DeferAccept_opt 3;
                   EnableOption FastOpen_opt 3;
                   EnableOption NoDelay_opt 3;
                   EnableOption QuickAck_opt 3;
                   Bind 3 sa_loopback; QueryBacklog; Listen 3 4096;
                   Close 3 ] |},
     Err (fmt_Errorf "cannot listen on %q: %s" ["127.0.0.1:8080"%string]
            (External (Errno 22)))).
Proof.
  apply (@NewListener_listen_failure darwin listen_fails FULL "tcp4"
           "127.0.0.1:8080" (all_on 0) start sa_loopback 2 (Errno 22));
    vm_compute; reflexivity.
Defined.

Lemma NewListener_resolution_failure_witness :
  @NewListener darwin resolver_fails (@full resolver_fails) "tcp"
    "nowhere.invalid:80" (all_on 0) start
  = (start, Err (External (LibError "lookup nowhere.invalid: no such host"))).
Proof.
  apply (proj2 (@NewListener_resolution_failure darwin resolver_fails
                  (@full resolver_fails) "tcp" "nowhere.invalid:80"
                  (all_on 0) start
                  (LibError "lookup nowhere.invalid: no such host")
                  ltac:(by left) ltac:(reflexivity))).
Defined.

Lemma getSockaddr_IPv4_bytes_witness :
  @getSockaddr darwin mapped_host "tcp4" "127.0.0.1:8080"
  = Ok (sa_loopback, 2)
  /\ @getSockaddr darwin quiet "tcp" "127.0.0.1:8080" = Ok (sa_loopback, 2).
Proof.
  split.
  - apply (@getSockaddr_IPv4_bytes darwin mapped_host "tcp4"
             "127.0.0.1:8080" mapped_loopback x7f x00 x00 x01);
      [by right|reflexivity|by right].
  - apply (@getSockaddr_IPv4_bytes darwin quiet "tcp" "127.0.0.1:8080"
             loopback x7f x00 x00 x01);
      [by left|reflexivity|by left].
Defined.

Lemma getSockaddr_IPv6_bytes_witness :
  ip6_loopback = ip6_loopback
  /\ v4InV6Prefix ++ [x7f; x00; x00; x01] = v4InV6Prefix ++ IP loopback
  /\ replicate 16 x00 = replicate 16 x00.
Proof.
  split; [|split].
  - apply (proj1 (proj2 (@getSockaddr_IPv6_bytes darwin ip6_host "[::1]:8080"
                           ip6_only 8080 0 30 ip6_loopback
                           ltac:(reflexivity) ltac:(reflexivity)))).
    reflexivity.
  - apply (proj1 (proj2 (proj2 (@getSockaddr_IPv6_bytes darwin quiet
                                  "127.0.0.1:8080" loopback 8080 0 30
                                  (v4InV6Prefix ++ [x7f; x00; x00; x01])
                                  ltac:(reflexivity) ltac:(reflexivity))))).
    reflexivity.
  - apply (proj2 (proj2 (proj2 (@getSockaddr_IPv6_bytes darwin empty_host
                                  ":8080" unspecified 8080 0 30
                                  (replicate 16 x00)
                                  ltac:(reflexivity) ltac:(reflexivity)))));
      discriminate.
Defined.

Lemma getSockaddr_unsupported_iff_witness :
  @getSockaddr darwin quiet "udp" "127.0.0.1:53"
  = Err (errors_New "only tcp4 and tcp6 network is supported").
Proof.
  apply (proj2 (@getSockaddr_unsupported_iff darwin quiet "udp"
                  "127.0.0.1:53")).
  repeat split; discriminate.
Defined.

Lemma NewListener_nonpositive_Backlog_witness :
  @NewListener darwin quiet (@bsd darwin quiet) "tcp4" "127.0.0.1:8080"
    (set_Backlog (-5) defaults) start
  = @NewListener darwin quiet (@bsd darwin quiet) "tcp4" "127.0.0.1:8080"
      (set_Backlog 0 defaults) start.
Proof.
  apply (@NewListener_nonpositive_Backlog darwin quiet (@bsd darwin quiet)
           "tcp4" "127.0.0.1:8080" defaults (-5) start).
  lia.
Defined.

Lemma fdSetup_calls_own_descriptor_witness :
  (exists level opt value, SetsockoptInt 3 65535 512 1
                           = SetsockoptInt 3 level opt value)
  \/ (exists o, SetsockoptInt 3 65535 512 1 = EnableOption o 3)
  \/ SetsockoptInt 3 65535 512 1 = Bind 3 sa_loopback
  \/ (exists backlog, SetsockoptInt 3 65535 512 1 = Listen 3 backlog)
  \/ SetsockoptInt 3 65535 512 1 = QueryBacklog.
Proof.
  apply (@fdSetup_calls_own_descriptor darwin quiet BSD (all_on 17) 3
           sa_loopback "127.0.0.1:8080" start
           [ SetsockoptInt 3 65535 4 1; SetsockoptInt 3 6 1 1;
             SetsockoptInt 3 65535 512 1; Bind 3 sa_loopback; Listen 3 17 ]).
  - vm_compute. reflexivity.
  - do 2 apply list_elem_of_further. apply list_elem_of_here.
Defined.

Lemma fdSetup_unrequested_never_invoked_witness :
  @fdSetup darwin fastopen_fails (@bsd darwin fastopen_fails) 3 sa_loopback
    "127.0.0.1:8080" (set_Backlog 17 defaults, start)
  = @fdSetup darwin fastopen_fails (@full fastopen_fails) 3 sa_loopback
      "127.0.0.1:8080" (set_Backlog 17 defaults, start).
Proof.
  apply (@fdSetup_unrequested_never_invoked darwin fastopen_fails
           (@bsd darwin fastopen_fails) (@full fastopen_fails)
           (set_Backlog 17 defaults) 3 sa_loopback "127.0.0.1:8080" start);
    simpl; intros H; (discriminate || lia).
Defined.

End MoreWitnesses.
